(** * Apple TV Search Tool: ranking and response normalisation

    A shallow embedding of [src/AppleTV_Search_tool.py] (class [ATVSearch]):
    the relevance score [_score_result], the storefront resolver
    [get_storefront_for_region] with the fallback of [__init__], and the
    shelf/item loop, sort and truncation of [search].

    Conventions of the embedding.
    - Python [str] is [string]; the model covers ASCII text, on which
      [str.lower] maps [A-Z] to [a-z] and leaves every other character alone.
    - Python [int] is [Z].
    - A decoded JSON document is a [json] tree; numbers are integers.
    - A Python call that can raise returns a [result]: [Return v] or
      [Raise e].
    - What is printed to [sys.stderr] is a list of [diag] events. *)

From Stdlib Require Import ZArith List String Ascii Bool Lia Permutation Sorted.
From Stdlib Require Import DecimalString.
Import ListNotations.

Set Warnings "-register-all".

Local Open Scope Z_scope.
Local Open Scope string_scope.

(** ** Python string primitives *)

Module Py.

(** [c.lower()] on one ASCII character. *)
Definition lower_char (c : ascii) : ascii :=
    let n := nat_of_ascii c in
    if (Nat.leb 65 n && Nat.leb n 90)%bool then ascii_of_nat (n + 32) else c.

(** [s.lower()]. *)
Fixpoint lower (s : string) : string :=
    match s with
    | EmptyString => EmptyString
    | String c s' => String (lower_char c) (lower s')
    end.

(** [c.upper()] on one ASCII character. *)
Definition upper_char (c : ascii) : ascii :=
  let n := nat_of_ascii c in
  if (Nat.leb 97 n && Nat.leb n 122)%bool then ascii_of_nat (n - 32) else c.

(** [s.upper()]. *)
Fixpoint upper (s : string) : string :=
  match s with
  | EmptyString => EmptyString
  | String c s' => String (upper_char c) (upper s')
  end.

(** [s.startswith(p)]. *)
Definition startswith (s p : string) : bool := String.prefix p s.

(** [needle in haystack] for two strings. *)
Fixpoint contains (needle haystack : string) : bool :=
    match haystack with
    | EmptyString => String.prefix needle EmptyString
    | String _ rest => String.prefix needle haystack || contains needle rest
    end.

(** The characters [str.split()] treats as separators in the ASCII range:
      tab, line feed, vertical tab, form feed, carriage return, the four
      separators 0x1c-0x1f and the space. *)
Definition isspace (c : ascii) : bool :=
    let n := nat_of_ascii c in
    (Nat.leb 9 n && Nat.leb n 13) || (Nat.leb 28 n && Nat.leb n 32).

Definition flush (word : string) : list string :=
    if String.eqb word "" then [] else [word].

(** [split_from s word]: the words of [s], the first one prefixed by the
      pending characters [word]. *)
Fixpoint split_from (s word : string) : list string :=
    match s with
    | EmptyString => flush word
    | String c s' =>
        if isspace c then (flush word ++ split_from s' "")%list
        else split_from s' (word ++ String c "")
    end.

(** [s.split()]: split on runs of whitespace, no empty words. *)
Definition split (s : string) : list string := split_from s "".

(** [w in words] for a list of strings. *)
Definition mem (w : string) (words : list string) : bool :=
    existsb (String.eqb w) words.

End Py.

(** ** The relevance score *)

(** The [if]/[elif] chain of [_score_result] acting on [score]. *)
Definition tier_step (title_lower query_lower : string) (score : Z) : Z :=
  if String.eqb title_lower query_lower then score + 1000
  else if Py.startswith title_lower query_lower then score + 500
  else if Py.contains (" " ++ query_lower) (" " ++ title_lower) then score + 300
  else if Py.contains query_lower title_lower then score + 200
  else score.

(** The [for qword in query_words] loop of [_score_result] acting on
    [score]. *)
Definition words_step (title_lower query_lower : string) (score : Z) : Z :=
  let query_words := Py.split query_lower in
  let title_words := Py.split title_lower in
  fold_left
    (fun score qword => if Py.mem qword title_words then score + 50 else score)
    query_words score.

(** [ATVSearch._score_result(title, query, position)]. *)
Definition _score_result (title query : string) (position : Z) : Z :=
  let title_lower := Py.lower title in
  let query_lower := Py.lower query in
  let score := 0 in
  let score := tier_step title_lower query_lower score in
  let score := words_step title_lower query_lower score in
  score + Z.max 0 (100 - position).

(** *** The three terms of the score as the specification words them *)

Inductive tier : Type :=
| Exact
| Prefix
| BoundedSubstring
| BareSubstring.

Definition tier_points (k : tier) : Z :=
  match k with
  | Exact => 1000
  | Prefix => 500
  | BoundedSubstring => 300
  | BareSubstring => 200
  end.

(** The test of a tier on the lower-cased title and query. *)
Definition tier_test (k : tier) (title_lower query_lower : string) : bool :=
  match k with
  | Exact => String.eqb title_lower query_lower
  | Prefix => Py.startswith title_lower query_lower
  | BoundedSubstring => Py.contains (" " ++ query_lower) (" " ++ title_lower)
  | BareSubstring => Py.contains query_lower title_lower
  end.

Definition priority_order : list tier :=
  [Exact; Prefix; BoundedSubstring; BareSubstring].

(** The tier that applies: the first in priority order whose test holds. *)
Definition tier_of (title query : string) : option tier :=
  find (fun k => tier_test k (Py.lower title) (Py.lower query)) priority_order.

Definition tier_bonus (title query : string) : Z :=
  match tier_of title query with
  | Some k => tier_points k
  | None => 0
  end.

(** +50 for every query word, duplicates included, found among the title
    words. *)
Definition word_overlap_bonus (title query : string) : Z :=
  50 * Z.of_nat
         (List.length
            (filter (fun qword => Py.mem qword (Py.split (Py.lower title)))
                    (Py.split (Py.lower query)))).

Definition position_bonus (position : Z) : Z := Z.max 0 (100 - position).

(** [k1] comes before [k2] in the priority order. *)
Definition outranks (k1 k2 : tier) : Prop :=
  match k1, k2 with
  | Exact, (Prefix | BoundedSubstring | BareSubstring) => True
  | Prefix, (BoundedSubstring | BareSubstring) => True
  | BoundedSubstring, BareSubstring => True
  | _, _ => False
  end.

(** ** Decoded JSON and the Python operations applied to it *)

(** What [resp.json()] returns: [None], [bool], [int], [str], [list], [dict]
    (a [dict] as its items in order, keys distinct). *)
Inductive json : Type :=
| JNull
| JBool (b : bool)
| JInt (n : Z)
| JStr (s : string)
| JArr (xs : list json)
| JObj (kvs : list (string * json)).

(** The exceptions the modelled operations raise on a value of the wrong
    type. *)
Inductive exn : Type :=
| AttributeError
| TypeError.

Inductive result (A : Type) : Type :=
| Return (a : A)
| Raise (e : exn).

Arguments Return {A} a.
Arguments Raise {A} e.

Definition bind {A B : Type} (m : result A) (k : A -> result B) : result B :=
  match m with
  | Return a => k a
  | Raise e => Raise e
  end.

Notation "x <- m ;; k" := (bind m (fun x => k))
  (at level 61, m at next level, right associativity).

Module PyJson.

(** [bool(v)]. *)
Definition truthy (v : json) : bool :=
  match v with
  | JNull => false
  | JBool b => b
  | JInt n => negb (Z.eqb n 0)
  | JStr s => negb (String.eqb s "")
  | JArr xs => match xs with [] => false | _ => true end
  | JObj kvs => match kvs with [] => false | _ => true end
  end.

Fixpoint lookup (k : string) (kvs : list (string * json)) : option json :=
  match kvs with
  | [] => None
  | (k', v) :: rest => if String.eqb k k' then Some v else lookup k rest
  end.

(** [d.get(k, default)]; only a [dict] has [get]. *)
Definition get (d : json) (k : string) (default : json) : result json :=
  match d with
  | JObj kvs =>
      Return (match lookup k kvs with Some v => v | None => default end)
  | _ => Raise AttributeError
  end.

(** [needle in v] for a string [needle]: substring of a [str], element of a
    [list], key of a [dict]; the other types are not containers. *)
Definition contains (needle : string) (v : json) : result bool :=
  match v with
  | JStr s => Return (Py.contains needle s)
  | JArr xs =>
      Return (existsb
                (fun x => match x with JStr t => String.eqb t needle | _ => false end)
                xs)
  | JObj kvs => Return (existsb (fun kv => String.eqb (fst kv) needle) kvs)
  | _ => Raise TypeError
  end.

(** [v.lower()]; only a [str] has [lower]. *)
Definition lower (v : json) : result string :=
  match v with
  | JStr s => Return (Py.lower s)
  | _ => Raise AttributeError
  end.

(** The elements a [for] loop over [v] visits: the elements of a [list], the
    keys of a [dict], the characters of a [str]. *)
Definition iter (v : json) : result (list json) :=
  match v with
  | JArr xs => Return xs
  | JObj kvs => Return (map (fun kv => JStr (fst kv)) kvs)
  | JStr s => Return (map (fun c => JStr (String c "")) (list_ascii_of_string s))
  | _ => Raise TypeError
  end.

(** Set elements: the hashable values up to Python equality, under which
    [True == 1] and [False == 0]. *)
Inductive key : Type :=
| KNone
| KInt (n : Z)
| KStr (s : string).

(** Hashing [v] for a set lookup; a [list] and a [dict] are unhashable. *)
Definition hash (v : json) : result key :=
  match v with
  | JNull => Return KNone
  | JBool b => Return (KInt (if b then 1 else 0))
  | JInt n => Return (KInt n)
  | JStr s => Return (KStr s)
  | _ => Raise TypeError
  end.

Definition key_eqb (a b : key) : bool :=
  match a, b with
  | KNone, KNone => true
  | KInt m, KInt n => Z.eqb m n
  | KStr s, KStr t => String.eqb s t
  | _, _ => false
  end.

(** [k in seen] for a set kept as the list of its elements. *)
Definition key_mem (k : key) (seen : list key) : bool := existsb (key_eqb k) seen.

End PyJson.

(** ** The HTTP collaborator and the error channel *)

(** Outcome of [session.get(...)], [resp.raise_for_status()] and
    [resp.json()] taken together: a [requests.RequestException] (connection
    error, timeout, [HTTPError] of a non-success status, [JSONDecodeError] of
    a body that is not JSON), or the decoded body. *)
Inductive response : Type :=
| Failed (reason : string)
| Body (data : json).

(** What an [except] clause has caught. *)
Inductive caught : Type :=
| RequestException (reason : string)
| PythonError (e : exn).

(** The lines printed to [sys.stderr]. *)
Inductive diag : Type :=
| ErrorFetchingStorefronts (e : caught)
| WarningFallbackToUS (region : string)
| ErrorFailedToSearch (reason : string).

(** ** The region resolver and the storefront choice of the constructor *)

Definition US_STOREFRONT : string := "143441".

Section Resolver.

(** [repr] of a [list] or a [dict], which [str] returns for a container. *)
Variable repr_container : json -> string.

(** [str(v)]. *)
Definition str (v : json) : string :=
  match v with
  | JNull => "None"
  | JBool true => "True"
  | JBool false => "False"
  | JInt n => NilZero.string_of_int (Z.to_int n)
  | JStr s => s
  | JArr _ | JObj _ => repr_container v
  end.

(** The body of the [try] block of [get_storefront_for_region] once the
    response is decoded; [None] stands for falling out of the [if]. *)
Definition storefront_lookup (data : json) (region : string)
  : result (option string) :=
  d <- PyJson.get data "data" (JObj []) ;;
  region_data <- PyJson.get d (Py.upper region) JNull ;;
  if PyJson.truthy region_data then
    storefrontId <- PyJson.get region_data "storefrontId" JNull ;;
    Return (Some (str storefrontId))
  else Return None.

(** [ATVSearch.get_storefront_for_region(region)]: [except Exception] turns
    every failure into a line on [stderr] and the final [return None]. *)
Definition get_storefront_for_region (http : response) (region : string)
  : list diag * option string :=
  match http with
  | Failed reason => ([ErrorFetchingStorefronts (RequestException reason)], None)
  | Body data =>
      match storefront_lookup data region with
      | Return found => ([], found)
      | Raise e => ([ErrorFetchingStorefronts (PythonError e)], None)
      end
  end.

(** Truth value of an [Optional[str]]. *)
Definition given (s : option string) : bool :=
  match s with
  | Some s => negb (String.eqb s "")
  | None => false
  end.

(** The text of an [Optional[str]] whose truth value is known. *)
Definition text (s : option string) : string :=
  match s with
  | Some s => s
  | None => ""
  end.

(** The storefront chosen by [ATVSearch.__init__(storefront_id, region)];
    the lookup request is made only when a region and no storefront is
    given. *)
Definition init_storefront (http : response)
  (storefront_id region : option string) : list diag * string :=
  let '(err, storefront_id) :=
    if given region && negb (given storefront_id) then
      let '(err, found) := get_storefront_for_region http (text region) in
      if negb (given found)
      then ((err ++ [WarningFallbackToUS (text region)])%list, US_STOREFRONT)
      else (err, text found)
    else ([], text storefront_id) in
  (err, if String.eqb storefront_id "" then US_STOREFRONT else storefront_id).

End Resolver.

(** ** Search: normalisation of the shelves *)

(** One entry of the returned list; the fields are the keys of the [dict]
    the source appends. *)
Record SearchResult : Type := mkResult {
  score : Z;
  id : json;
  title : string;
  type : json;
  raw_type : json;
  url : json
}.

(** The two variables the loops update: [results] and [seen_ids]. *)
Record state : Type := mkState {
  results : list SearchResult;
  seen_ids : list PyJson.key
}.

(** [not url or ("/show/" not in url and "/movie/" not in url and
    "/person/" not in url)]. *)
Definition url_rejected (url : json) : result bool :=
  if negb (PyJson.truthy url) then Return true else
  is_show <- PyJson.contains "/show/" url ;;
  if is_show then Return false else
  is_movie <- PyJson.contains "/movie/" url ;;
  if is_movie then Return false else
  is_person <- PyJson.contains "/person/" url ;;
  Return (negb is_person).

(** The [if filter_type:] block; [true] when one of its [continue]s is
    taken. *)
Definition filtered_out (filter_type : option string) (url : json)
  : result bool :=
  if given filter_type then
    let ft := Py.lower (text filter_type) in
    is_movie <- PyJson.contains "/movie/" url ;;
    is_show <- PyJson.contains "/show/" url ;;
    if String.eqb ft "movie" && negb is_movie then Return true
    else if (String.eqb ft "show" || String.eqb ft "series") && negb is_show
    then Return true
    else Return false
  else Return false.

(** The call [self._score_result(title, query, position)] on the decoded
    title: [title.lower()] exists only on a [str]. *)
Definition score_item (title : json) (query : string) (position : nat)
  : result (string * Z) :=
  match title with
  | JStr t => Return (t, _score_result t query (Z.of_nat position))
  | _ => Raise AttributeError
  end.

(** The body of [for position, item in enumerate(items)]. *)
Definition visit_item (query : string) (filter_type : option string)
  (st : state) (position : nat) (item : json) : result state :=
  content_id <- PyJson.get item "id" JNull ;;
  if negb (PyJson.truthy content_id) then Return st else
  k <- PyJson.hash content_id ;;
  if PyJson.key_mem k (seen_ids st) then Return st else
  let seen := k :: seen_ids st in
  title <- PyJson.get item "title" (JStr "Unknown") ;;
  content_type <- PyJson.get item "type" (JStr "Unknown") ;;
  localized_type <- PyJson.get item "localizedType" content_type ;;
  url <- PyJson.get item "url" (JStr "") ;;
  rejected <- url_rejected url ;;
  if rejected then Return (mkState (results st) seen) else
  dropped <- filtered_out filter_type url ;;
  if dropped then Return (mkState (results st) seen) else
  scored <- score_item title query position ;;
  let entry := mkResult (snd scored) content_id (fst scored)
                        localized_type content_type url in
  Return (mkState (results st ++ [entry]) seen).

Fixpoint visit_items (query : string) (filter_type : option string)
  (st : state) (position : nat) (items : list json) : result state :=
  match items with
  | [] => Return st
  | item :: rest =>
      st' <- visit_item query filter_type st position item ;;
      visit_items query filter_type st' (S position) rest
  end.

(** ["PN" in shelf_id or "people" in shelf_id.lower()]. *)
Definition is_people_shelf (shelf_id : json) : result bool :=
  pn <- PyJson.contains "PN" shelf_id ;;
  if pn then Return true else
  lowered <- PyJson.lower shelf_id ;;
  Return (Py.contains "people" lowered).

(** [not self.include_people and (...)]: the test of the shelf-level
    [continue]. *)
Definition shelf_skipped (include_people : bool) (shelf_id : json)
  : result bool :=
  if negb include_people then is_people_shelf shelf_id else Return false.

(** The items the inner loop visits for one shelf: none when the shelf is
    skipped. *)
Definition shelf_items (include_people : bool) (shelf : json)
  : result (list json) :=
  shelf_id <- PyJson.get shelf "id" (JStr "") ;;
  skip <- shelf_skipped include_people shelf_id ;;
  if skip then Return [] else
  items <- PyJson.get shelf "items" (JArr []) ;;
  PyJson.iter items.

(** The body of [for shelf in shelves]. *)
Definition visit_shelf (include_people : bool) (query : string)
  (filter_type : option string) (st : state) (shelf : json) : result state :=
  items <- shelf_items include_people shelf ;;
  visit_items query filter_type st 0 items.

Fixpoint visit_shelves (include_people : bool) (query : string)
  (filter_type : option string) (st : state) (shelves : list json)
  : result state :=
  match shelves with
  | [] => Return st
  | shelf :: rest =>
      st' <- visit_shelf include_people query filter_type st shelf ;;
      visit_shelves include_people query filter_type st' rest
  end.

(** ** Search: sort and truncation *)

(** The sort key [(-x["score"], x["title"])]. *)
Definition sort_key (x : SearchResult) : Z * string := (- score x, title x).

(** [a <= b] on such tuples: first components, then the strings by code
    point. *)
Definition key_le (a b : Z * string) : bool :=
  Z.ltb (fst a) (fst b) || (Z.eqb (fst a) (fst b) && String.leb (snd a) (snd b)).

(** [list.sort] is stable; so is insertion from the right, where an entry
    goes in front of the first entry whose key is not smaller. *)
Fixpoint insert (x : SearchResult) (sorted : list SearchResult)
  : list SearchResult :=
  match sorted with
  | [] => [x]
  | y :: rest =>
      if key_le (sort_key x) (sort_key y) then x :: sorted
      else y :: insert x rest
  end.

Fixpoint sort (l : list SearchResult) : list SearchResult :=
  match l with
  | [] => []
  | x :: rest => insert x (sort rest)
  end.

(** [results[:max_results]] under [max_results is not None and
    max_results > 0]. *)
Definition truncate (l : list SearchResult) (max_results : option Z)
  : list SearchResult :=
  match max_results with
  | Some n => if Z.ltb 0 n then firstn (Z.to_nat n) l else l
  | None => l
  end.

(** The end of [search]: sort, then truncate. *)
Definition rank (l : list SearchResult) (max_results : option Z)
  : list SearchResult :=
  truncate (sort l) max_results.

(** ** Search *)

(** [data.get("data", {}).get("canvas", {}).get("shelves", [])]. *)
Definition shelves_of (data : json) : result json :=
  d <- PyJson.get data "data" (JObj []) ;;
  canvas <- PyJson.get d "canvas" (JObj []) ;;
  PyJson.get canvas "shelves" (JArr []).

(** [search] after the request has returned a decoded body. *)
Definition search_body (include_people : bool) (data : json) (query : string)
  (max_results : option Z) (filter_type : option string)
  : result (list SearchResult) :=
  shelves <- shelves_of data ;;
  if negb (PyJson.truthy shelves) then Return [] else
  shelf_list <- PyJson.iter shelves ;;
  st <- visit_shelves include_people query filter_type (mkState [] []) shelf_list ;;
  Return (rank (results st) max_results).

(** [ATVSearch.search(query, max_results, filter_type)]: what is printed to
    [stderr], and the returned list or the exception that propagates. Only
    [requests.RequestException] is caught. *)
Definition search (include_people : bool) (http : response) (query : string)
  (max_results : option Z) (filter_type : option string)
  : list diag * result (list SearchResult) :=
  match http with
  | Failed reason => ([ErrorFailedToSearch reason], Return [])
  | Body data =>
      ([], search_body include_people data query max_results filter_type)
  end.

(** ** The search loop as a sequence of item visits *)

(** The identifier of an item as the loop tests it: the set element of a
    truthy, hashable ["id"]; [None] for an item the first [continue]
    drops. *)
Definition item_key (item : json) : option PyJson.key :=
  match PyJson.get item "id" JNull with
  | Return content_id =>
      if PyJson.truthy content_id then
        match PyJson.hash content_id with
        | Return k => Some k
        | Raise _ => None
        end
      else None
  | Raise _ => None
  end.

(** Whether an item passes the URL validation and the type filter. *)
Definition item_kept (filter_type : option string) (item : json)
  : result bool :=
  url <- PyJson.get item "url" (JStr "") ;;
  rejected <- url_rejected url ;;
  if rejected then Return false else
  dropped <- filtered_out filter_type url ;;
  Return (negb dropped).

(** The entry appended for an item visited at [position]. *)
Definition entry_of (query : string) (position : nat) (item : json)
  : result SearchResult :=
  content_id <- PyJson.get item "id" JNull ;;
  title <- PyJson.get item "title" (JStr "Unknown") ;;
  content_type <- PyJson.get item "type" (JStr "Unknown") ;;
  localized_type <- PyJson.get item "localizedType" content_type ;;
  url <- PyJson.get item "url" (JStr "") ;;
  scored <- score_item title query position ;;
  Return (mkResult (snd scored) content_id (fst scored)
                   localized_type content_type url).

(** The four ways one visit that does not raise changes the state. *)
Inductive item_step (query : string) (filter_type : option string)
  (st : state) (position : nat) (item : json) : state -> Prop :=
| step_no_id :
    item_key item = None ->
    item_step query filter_type st position item st
| step_duplicate k :
    item_key item = Some k ->
    In k (seen_ids st) ->
    item_step query filter_type st position item st
| step_rejected k :
    item_key item = Some k ->
    ~ In k (seen_ids st) ->
    item_kept filter_type item = Return false ->
    item_step query filter_type st position item
              (mkState (results st) (k :: seen_ids st))
| step_appended k entry :
    item_key item = Some k ->
    ~ In k (seen_ids st) ->
    item_kept filter_type item = Return true ->
    entry_of query position item = Return entry ->
    item_step query filter_type st position item
              (mkState (results st ++ [entry]) (k :: seen_ids st)).

(** [enumerate(items)] counted from [position]. *)
Fixpoint enumerate (position : nat) (items : list json) : list (nat * json) :=
  match items with
  | [] => []
  | item :: rest => (position, item) :: enumerate (S position) rest
  end.

(** The visits of the shelves in order: every item of every shelf that is
    not skipped, with its position within its own shelf. *)
Fixpoint visits (include_people : bool) (shelves : list json)
  : result (list (nat * json)) :=
  match shelves with
  | [] => Return []
  | shelf :: rest =>
      items <- shelf_items include_people shelf ;;
      later <- visits include_people rest ;;
      Return (enumerate 0 items ++ later)%list
  end.

Fixpoint visit_seq (query : string) (filter_type : option string)
  (st : state) (l : list (nat * json)) : result state :=
  match l with
  | [] => Return st
  | (position, item) :: rest =>
      st' <- visit_item query filter_type st position item ;;
      visit_seq query filter_type st' rest
  end.

(** The shelves a response carries, as [search] iterates over them; none
    when there is no body, the path does not resolve or the list is empty. *)
Definition shelf_list (http : response) : list json :=
  match http with
  | Failed _ => []
  | Body data =>
      match shelves_of data with
      | Return shelves =>
          if PyJson.truthy shelves then
            match PyJson.iter shelves with
            | Return l => l
            | Raise _ => []
            end
          else []
      | Raise _ => []
      end
  end.

(** The visits of a whole response. *)
Definition visited (include_people : bool) (http : response)
  : list (nat * json) :=
  match visits include_people (shelf_list http) with
  | Return l => l
  | Raise _ => []
  end.

(** The list [results] holds when the loops end. *)
Definition accumulated (include_people : bool) (http : response)
  (query : string) (filter_type : option string) : list SearchResult :=
  match visit_shelves include_people query filter_type (mkState [] [])
                      (shelf_list http) with
  | Return st => results st
  | Raise _ => []
  end.

(** [l1 ++ (position, item) :: l2] splits the visits at the first visit of
    an item with identifier [k]. *)
Definition first_visit (k : PyJson.key) (l1 : list (nat * json))
  (item : json) : Prop :=
  item_key item = Some k /\
  forall visit, In visit l1 -> item_key (snd visit) <> Some k.

(** The set element of the identifier of a returned entry. *)
Definition result_key (r : SearchResult) : PyJson.key :=
  match PyJson.hash (id r) with
  | Return k => k
  | Raise _ => PyJson.KNone
  end.

(** *** The order of the returned list *)

(** [a] may stand before [b]: higher score first, equal scores by title in
    code-point order. *)
Definition precedes (a b : SearchResult) : Prop :=
  score b < score a \/
  (score a = score b /\ String.compare (title a) (title b) <> Gt).

(** Same sort key. *)
Definition same_rank (a b : SearchResult) : bool :=
  Z.eqb (score a) (score b) && String.eqb (title a) (title b).

(** ** The documented shape of a search body *)

(** The value under [k] is a [str], or the key is absent. *)
Definition str_or_absent (kvs : list (string * json)) (k : string) : bool :=
  match PyJson.lookup k kvs with
  | None => true
  | Some (JStr _) => true
  | Some _ => false
  end.

(** An item as the endpoint documents it: a [dict] whose ["id"], ["title"]
    and ["url"] are strings when present. *)
Definition item_well_shaped (item : json) : bool :=
  match item with
  | JObj kvs =>
      str_or_absent kvs "id" && str_or_absent kvs "title"
      && str_or_absent kvs "url"
  | _ => false
  end.

(** A shelf: a [dict] whose ["id"] is a string when present and whose
    ["items"], when present, is a list of such items. *)
Definition shelf_well_shaped (shelf : json) : bool :=
  match shelf with
  | JObj kvs =>
      str_or_absent kvs "id"
      && match PyJson.lookup "items" kvs with
         | None => true
         | Some (JArr items) => forallb item_well_shaped items
         | Some _ => false
         end
  | _ => false
  end.

(** A body: [data.canvas.shelves] resolves, keys absent or not, to a list
    of such shelves. *)
Definition body_well_shaped (data : json) : bool :=
  match shelves_of data with
  | Return (JArr shelves) => forallb shelf_well_shaped shelves
  | _ => false
  end.

(** ** The command-line entry point *)

(** The [argparse.Namespace] that [parse_args] returns, one field per
    [dest]. *)
Module Args.

Record t : Type := mk {
  query : list string;
  storefront : option string;
  locale : string;
  max_results : option Z;
  filter_type : option string;
  include_people : bool;
  json : bool;
  timeout : Z;
  version : bool
}.

End Args.

(** The [print] calls of [main] to [stdout], each with the values it
    formats. [PrintResult] stands for the six calls of one turn of the final
    loop. *)
Inductive out : Type :=
| PrintVersion
| PrintStorefrontID (storefront_id : string)
| PrintRegion (region : string)
| PrintLocale (locale : string)
| PrintQuery (query : string)
| PrintFilterType (filter_type : string)
| PrintDevelopedBy
| PrintEmptyArray
| PrintNoResults
| PrintJson (results : list SearchResult)
| PrintFound (n : nat)
| PrintResult (i : nat) (r : SearchResult).

(** [s.isdigit()] on ASCII text: not empty and decimal digits only. *)
Definition isdigit (s : string) : bool :=
  negb (String.eqb s "")
  && forallb (fun c => let n := nat_of_ascii c in
                       Nat.leb 48 n && Nat.leb n 57)
             (list_ascii_of_string s).

(** The [if args.storefront:] block of [main]: the pair
    [(storefront_id, region)]. *)
Definition storefront_or_region (storefront : option string)
  : option string * option string :=
  if given storefront then
    if isdigit (text storefront) then (storefront, None)
    else (None, Some (Py.upper (text storefront)))
  else (None, None).

(** [enumerate(results, i)] turned into the blocks the loop prints. *)
Fixpoint result_blocks (i : nat) (results : list SearchResult) : list out :=
  match results with
  | [] => []
  | r :: rest => PrintResult i r :: result_blocks (S i) rest
  end.

Section Main.

Variable repr_container : json -> string.

(** [main(argv)] after [parse_args]: what is printed to [stdout], what is
    printed to [stderr], and the exit code or the exception that
    propagates. [storefronts_http] and [search_http] are the outcomes of the
    two requests, should they be made. *)
Definition main (args : Args.t) (storefronts_http search_http : response)
  : list out * list diag * result Z :=
  if Args.version args then ([PrintVersion], [], Return 0) else
  let query := String.concat " " (Args.query args) in
  let '(storefront_id, region) := storefront_or_region (Args.storefront args) in
  let '(err, searcher_storefront_id) :=
    init_storefront repr_container storefronts_http storefront_id region in
  let header :=
    if Args.json args then []
    else ([PrintStorefrontID searcher_storefront_id]
          ++ (if given region then [PrintRegion (text region)] else [])
          ++ [PrintLocale (Args.locale args); PrintQuery query]
          ++ (if given (Args.filter_type args)
              then [PrintFilterType (text (Args.filter_type args))] else [])
          ++ [PrintDevelopedBy])%list in
  let '(search_err, outcome) :=
    search (Args.include_people args) search_http query
           (Args.max_results args) (Args.filter_type args) in
  let err := (err ++ search_err)%list in
  match outcome with
  | Raise e => (header, err, Raise e)
  | Return [] =>
      ((header ++ [if Args.json args then PrintEmptyArray else PrintNoResults])%list,
       err, Return 0)
  | Return results =>
      if Args.json args then ((header ++ [PrintJson results])%list, err, Return 0)
      else ((header ++ PrintFound (List.length results)
                    :: result_blocks 1 results)%list,
            err, Return 0)
  end.

End Main.

(** ** Sample responses *)

Definition sample_item (id_ title_ url_ : string) : json :=
  JObj [("id", JStr id_); ("title", JStr title_); ("type", JStr "Movie");
        ("url", JStr url_)].

Definition sample_shelf (id_ : string) (items : list json) : json :=
  JObj [("id", JStr id_); ("items", JArr items)].

Definition sample_body (shelves : list json) : response :=
  Body (JObj [("data", JObj [("canvas", JObj [("shelves", JArr shelves)])])]).

(** A people shelf first, then a shelf that repeats its identifier. *)
Definition ted_person : json := sample_item "p1" "Ted (person)" "/person/ted".
Definition ted_lasso : json := sample_item "p1" "Ted Lasso" "/show/ted-lasso".
Definition people_then_top : response :=
  sample_body [sample_shelf "uts.col.Featured.PN" [ted_person];
               sample_shelf "uts.col.Top" [ted_lasso]].

(** Two shelves that both carry the identifier ["X123"]. *)
Definition two_shelves : response :=
  sample_body
    [sample_shelf "uts.col.Movies" [sample_item "X123" "Foundation" "/movie/foundation"];
     sample_shelf "uts.col.Top"
       [sample_item "X123" "Foundation (again)" "/movie/foundation";
        sample_item "Y456" "Foundation II" "/show/foundation-ii"]].

(** An identifier first met on an item without a URL, then on a person. *)
Definition burned_id : response :=
  sample_body
    [sample_shelf "uts.col.Top"
       [sample_item "x1" "Draft" ""; sample_item "x1" "Bar" "/person/bar"]].

(** A movie and a person in a shelf whose identifier holds ["pN"]. *)
Definition foo_movie : json := sample_item "m1" "Foo" "/movie/foo".
Definition bar_person : json := sample_item "p1" "Bar" "/person/bar".
Definition up_next : response :=
  sample_body [sample_shelf "uts.col.UpNext" [foo_movie; bar_person]].

(** Three entries to sort: two of equal score, one title in upper case. *)
Definition three_entries : list SearchResult :=
  [mkResult 100 (JStr "a") "b" JNull JNull (JStr "/show/b");
   mkResult 300 (JStr "b") "apple" JNull JNull (JStr "/show/apple");
   mkResult 300 (JStr "c") "Zebra" JNull JNull (JStr "/show/zebra")].

(** A storefront directory whose record for US has no ["storefrontId"]. *)
Definition storefronts_without_id : response :=
  Body (JObj [("data", JObj [("US", JObj [("name", JStr "United States")])])]).

(** A storefront directory as the endpoint documents it. *)
Definition storefronts : response :=
  Body (JObj [("data", JObj [("US", JObj [("storefrontId", JInt 143441)]);
                             ("GB", JObj [("storefrontId", JInt 143444)])])]).

(** Search bodies of an unexpected shape. *)
Definition canvas_null : response :=
  Body (JObj [("data", JObj [("canvas", JNull)])]).

Definition shelf_id_null : response :=
  sample_body [JObj [("id", JNull); ("items", JArr [foo_movie])]].

(** Command lines: [atv "Ted" "Lasso" -sf 143444 --json] and
    [atv "Foundation" -sf gb]. *)
Definition args_numeric_json : Args.t :=
  Args.mk ["Ted"; "Lasso"] (Some "143444") "en-US" None None false true 10 false.


(** * Properties *)

(** ** Strings *)

Lemma prefix_refl (s : string) : String.prefix s s = true.
Proof.
  induction s as [|c s IH]; simpl; [reflexivity|].
  destruct (ascii_dec c c); [exact IH | congruence].
Qed.

Lemma contains_of_prefix (needle haystack : string) :
  String.prefix needle haystack = true -> Py.contains needle haystack = true.
Proof.
  destruct haystack; simpl; intros H; [exact H | rewrite H; reflexivity].
Qed.

Lemma contains_refl (s : string) : Py.contains s s = true.
Proof. apply contains_of_prefix, prefix_refl. Qed.

Lemma contains_drop_first (c : ascii) (needle haystack : string) :
  Py.contains (String c needle) haystack = true ->
  Py.contains needle haystack = true.
Proof.
  induction haystack as [|a h IH]; simpl; [discriminate|].
  intros H. apply orb_true_iff in H. destruct H as [H | H].
  - destruct (ascii_dec c a); [|discriminate].
    rewrite (contains_of_prefix _ _ H). apply orb_true_r.
  - rewrite (IH H). apply orb_true_r.
Qed.

Lemma bounded_is_substring (q t : string) :
  Py.contains (" " ++ q) (" " ++ t) = true -> Py.contains q t = true.
Proof.
  simpl. intros H. apply orb_true_iff in H. destruct H as [H | H].
  - apply contains_of_prefix. exact H.
  - eapply contains_drop_first. exact H.
Qed.

(** ** The score *)

Lemma fold_bonus (f : string -> bool) (words : list string) (score : Z) :
  fold_left (fun score w => if f w then score + 50 else score) words score
  = score + 50 * Z.of_nat (List.length (filter f words)).
Proof.
  revert score. induction words as [|w words IH]; intros score;
    cbn [fold_left filter].
  - cbn [List.length]. lia.
  - rewrite IH. destruct (f w); cbn [List.length];
      rewrite ?Nat2Z.inj_succ; lia.
Qed.

Lemma tier_step_bonus (title query : string) (score : Z) :
  tier_step (Py.lower title) (Py.lower query) score
  = score + tier_bonus title query.
Proof.
  unfold tier_step, tier_bonus, tier_of, priority_order. simpl.
  destruct (String.eqb _ _); [reflexivity|].
  destruct (Py.startswith _ _); [reflexivity|].
  destruct (String.prefix _ _ || Py.contains _ _)%bool; [reflexivity|].
  destruct (Py.contains _ _); simpl; lia.
Qed.

Lemma words_step_bonus (title query : string) (score : Z) :
  words_step (Py.lower title) (Py.lower query) score
  = score + word_overlap_bonus title query.
Proof. unfold words_step, word_overlap_bonus. apply fold_bonus. Qed.

Lemma score_sum (title query : string) (position : Z) :
  _score_result title query position
  = tier_bonus title query + word_overlap_bonus title query
    + position_bonus position.
Proof.
  unfold _score_result. rewrite words_step_bonus, tier_step_bonus.
  unfold position_bonus. lia.
Qed.

Lemma tier_bonus_nonneg (title query : string) : 0 <= tier_bonus title query.
Proof.
  unfold tier_bonus. destruct (tier_of title query) as [[]|]; simpl; lia.
Qed.

Lemma word_overlap_nonneg (title query : string) :
  0 <= word_overlap_bonus title query.
Proof. unfold word_overlap_bonus. lia. Qed.

Lemma score_lower_bound (title query : string) (position : Z) :
  0 <= _score_result title query position /\
  Z.max 0 (100 - position) <= _score_result title query position.
Proof.
  rewrite score_sum. unfold position_bonus.
  pose proof (tier_bonus_nonneg title query).
  pose proof (word_overlap_nonneg title query). lia.
Qed.

(** C1. The score is the sum of the tier bonus, the word-overlap bonus (+50
    per query word found among the title words) and the position bonus
    [max(0, 100 - position)]; hence, at equal position and word overlap, a
    title in an earlier tier scores strictly higher than a title in a later
    one: exact over prefix over bounded substring over bare substring. *)
Theorem C1_score_is_sum_of_three_terms :
  (forall title query position,
      _score_result title query position
      = tier_bonus title query + word_overlap_bonus title query
        + position_bonus position) /\
  (forall t1 t2 query position k1 k2,
      tier_of t1 query = Some k1 ->
      tier_of t2 query = Some k2 ->
      outranks k1 k2 ->
      word_overlap_bonus t1 query = word_overlap_bonus t2 query ->
      _score_result t2 query position < _score_result t1 query position).
Proof.
  split; [exact score_sum|].
  intros t1 t2 query position k1 k2 H1 H2 Hout Hw.
  rewrite !score_sum, Hw. unfold tier_bonus. rewrite H1, H2.
  destruct k1, k2; cbn [outranks] in Hout; try contradiction;
    cbn [tier_points]; lia.
Qed.

Lemma C1_witness :
  _score_result "Foundation II" "Foundation" 7
  < _score_result "Foundation" "Foundation" 7.
Proof.
  apply (proj2 C1_score_is_sum_of_three_terms) with (k1 := Exact) (k2 := Prefix);
    [reflexivity | reflexivity | exact I | reflexivity].
Defined.

Example tiers_of_the_specification :
  tier_of "Foundation" "Foundation" = Some Exact /\
  tier_of "Foundation II" "Foundation" = Some Prefix /\
  tier_of "The Foundation Show" "Foundation" = Some BoundedSubstring /\
  tier_of "xFoundationx" "Foundation" = Some BareSubstring.
Proof. repeat split. Qed.

Example score_exact : _score_result "Foundation" "Foundation" 0 = 1150.
Proof. reflexivity. Qed.

Example score_prefix : _score_result "Foundation II" "Foundation" 0 = 650.
Proof. reflexivity. Qed.

Example score_bounded : _score_result "The Foundation Show" "Foundation" 0 = 450.
Proof. reflexivity. Qed.

Example score_bare : _score_result "xFoundationx" "Foundation" 0 = 300.
Proof. reflexivity. Qed.

Example score_duplicate_words : _score_result "lasso" "lasso lasso" 3 = 197.
Proof. reflexivity. Qed.

(** C6, as stated, fails: for a query that is not a substring of the title
    none of the four tiers applies and the chain adds nothing. *)
Lemma C6_no_tier_applies :
  tier_of "Foo" "bar" = None /\
  tier_step (Py.lower "Foo") (Py.lower "bar") 0 = 0 /\
  _score_result "Foo" "bar" 100 = 0.
Proof. repeat split. Qed.

(** C6, amended. At most one tier applies: the chain adds the points of the
    first tier in priority order whose test holds and of no other; some tier
    applies exactly when the lower-cased query is a substring of the
    lower-cased title, and otherwise the chain adds nothing. *)
Theorem C6_at_most_one_tier :
  forall title query score,
    let title_lower := Py.lower title in
    let query_lower := Py.lower query in
    (tier_step title_lower query_lower score
     = score + match tier_of title query with
               | Some k => tier_points k
               | None => 0
               end) /\
    (forall k,
        tier_of title query = Some k <->
        (tier_test k title_lower query_lower = true /\
         forall k', outranks k' k ->
                    tier_test k' title_lower query_lower = false)) /\
    (tier_of title query = None <->
     Py.contains query_lower title_lower = false).
Proof.
  intros title query score title_lower query_lower.
  split; [apply tier_step_bonus|].
  assert (Hex : String.eqb title_lower query_lower = true ->
                Py.contains query_lower title_lower = true).
  { intros H. apply String.eqb_eq in H. rewrite H. apply contains_refl. }
  assert (Hpre : Py.startswith title_lower query_lower = true ->
                 Py.contains query_lower title_lower = true).
  { apply contains_of_prefix. }
  pose proof (bounded_is_substring query_lower title_lower) as Hbd.
  unfold tier_of, priority_order. fold title_lower query_lower.
  cbn [find tier_test].
  destruct (String.eqb title_lower query_lower) eqn:E1;
    destruct (Py.startswith title_lower query_lower) eqn:E2;
    destruct (Py.contains (" " ++ query_lower) (" " ++ title_lower)) eqn:E3;
    destruct (Py.contains query_lower title_lower) eqn:E4;
    try (specialize (Hex eq_refl); discriminate);
    try (specialize (Hpre eq_refl); discriminate);
    try (specialize (Hbd eq_refl); discriminate);
    (split;
     [ intros k; split;
       [ intros Hk;
         first
           [ discriminate Hk
           | injection Hk as <-; cbn [tier_test]; split;
             [ assumption
             | intros k' Hk'; destruct k'; cbn in Hk'; try contradiction;
               cbn [tier_test]; assumption ] ]
       | intros [Hk Hall]; destruct k; cbn [tier_test] in Hk;
         try congruence;
         try (specialize (Hall Exact I); cbn [tier_test] in Hall; congruence);
         try (specialize (Hall Prefix I); cbn [tier_test] in Hall; congruence);
         try (specialize (Hall BoundedSubstring I); cbn [tier_test] in Hall;
              congruence) ]
     | split; congruence ]).
Qed.

Lemma C6_witness : tier_of "Foundation II" "Foundation" = Some Prefix.
Proof.
  apply (proj1 (proj2 (C6_at_most_one_tier "Foundation II" "Foundation" 0))
               Prefix).
  split; [reflexivity|].
  intros k' Hk'. destruct k'; cbn in Hk'; try contradiction. reflexivity.
Defined.

(** ** Sort and truncation *)

Lemma string_compare_refl (s : string) : String.compare s s = Eq.
Proof.
  pose proof (String.compare_antisym s s) as H.
  destruct (String.compare s s); simpl in H; congruence.
Qed.

Lemma string_compare_le_trans (a b c : string) :
  String.compare a b <> Gt -> String.compare b c <> Gt ->
  String.compare a c <> Gt.
Proof.
  revert b c. induction a as [|x a IH]; intros [|y b] [|z c]; simpl;
    try congruence.
  unfold Ascii.compare.
  destruct (N.compare_spec (N_of_ascii x) (N_of_ascii y)) as [Hxy|Hxy|Hxy];
    destruct (N.compare_spec (N_of_ascii y) (N_of_ascii z)) as [Hyz|Hyz|Hyz];
    destruct (N.compare_spec (N_of_ascii x) (N_of_ascii z)) as [Hxz|Hxz|Hxz];
    try congruence; try lia.
  apply IH.
Qed.

Lemma key_le_precedes (a b : SearchResult) :
  key_le (sort_key a) (sort_key b) = true <-> precedes a b.
Proof.
  unfold key_le, sort_key, precedes, String.leb. cbn [fst snd]. split.
  - intros H. apply orb_true_iff in H. destruct H as [H | H].
    + left. apply Z.ltb_lt in H. lia.
    + right. apply andb_true_iff in H. destruct H as [H1 H2].
      apply Z.eqb_eq in H1. split; [lia|].
      destruct (String.compare (title a) (title b)); congruence.
  - intros [H | [H1 H2]]; apply orb_true_iff.
    + left. apply Z.ltb_lt. lia.
    + right. apply andb_true_iff. split; [apply Z.eqb_eq; lia|].
      destruct (String.compare (title a) (title b)); congruence.
Qed.

Lemma precedes_total (a b : SearchResult) :
  key_le (sort_key a) (sort_key b) = false -> precedes b a.
Proof.
  intros H. unfold precedes.
  destruct (Z.lt_trichotomy (score a) (score b)) as [Hlt | [Heq | Hgt]].
  - left. exact Hlt.
  - right. split; [lia|]. intros Hgt.
    assert (Hab : precedes a b).
    { right. split; [exact Heq|].
      rewrite String.compare_antisym, Hgt. discriminate. }
    apply key_le_precedes in Hab. congruence.
  - assert (Hab : precedes a b) by (left; lia).
    apply key_le_precedes in Hab. congruence.
Qed.

Lemma precedes_trans (a b c : SearchResult) :
  precedes a b -> precedes b c -> precedes a c.
Proof.
  unfold precedes. intros [H1 | [H1 T1]] [H2 | [H2 T2]].
  - left. lia.
  - left. lia.
  - left. lia.
  - right. split; [lia|]. eapply string_compare_le_trans; eassumption.
Qed.

Lemma same_rank_precedes (z x y : SearchResult) :
  same_rank z x = true -> same_rank z y = true ->
  key_le (sort_key x) (sort_key y) = true.
Proof.
  unfold same_rank. intros Hx Hy.
  apply andb_true_iff in Hx. destruct Hx as [Sx Tx].
  apply andb_true_iff in Hy. destruct Hy as [Sy Ty].
  apply Z.eqb_eq in Sx, Sy. apply String.eqb_eq in Tx, Ty.
  apply key_le_precedes. right. split; [lia|].
  rewrite <- Tx, <- Ty, string_compare_refl. discriminate.
Qed.

Lemma insert_perm (x : SearchResult) (l : list SearchResult) :
  Permutation (x :: l) (insert x l).
Proof.
  induction l as [|y l IH]; simpl; [apply Permutation_refl|].
  destruct (key_le (sort_key x) (sort_key y)); [apply Permutation_refl|].
  eapply perm_trans; [apply perm_swap|]. apply perm_skip. exact IH.
Qed.

Lemma sort_perm (l : list SearchResult) : Permutation l (sort l).
Proof.
  induction l as [|x l IH]; simpl; [apply perm_nil|].
  eapply perm_trans; [apply perm_skip; exact IH | apply insert_perm].
Qed.

Lemma insert_sorted (x : SearchResult) (l : list SearchResult) :
  StronglySorted precedes l -> StronglySorted precedes (insert x l).
Proof.
  induction 1 as [|y l Hsorted IH Hy]; simpl.
  - constructor; constructor.
  - destruct (key_le (sort_key x) (sort_key y)) eqn:E.
    + apply key_le_precedes in E. constructor.
      * constructor; assumption.
      * constructor; [exact E|].
        eapply Forall_impl; [|exact Hy].
        intros z Hz. eapply precedes_trans; eassumption.
    + apply precedes_total in E. constructor; [exact IH|].
      eapply Permutation_Forall; [apply insert_perm|].
      constructor; assumption.
Qed.

Lemma sort_sorted (l : list SearchResult) : StronglySorted precedes (sort l).
Proof.
  induction l as [|x l IH]; simpl; [constructor | apply insert_sorted, IH].
Qed.

Lemma insert_filter (z x : SearchResult) (l : list SearchResult) :
  filter (same_rank z) (insert x l)
  = if same_rank z x then x :: filter (same_rank z) l
    else filter (same_rank z) l.
Proof.
  induction l as [|y l IH]; simpl.
  - destruct (same_rank z x); reflexivity.
  - destruct (key_le (sort_key x) (sort_key y)) eqn:E; simpl.
    + destruct (same_rank z x); reflexivity.
    + rewrite IH.
      destruct (same_rank z x) eqn:Ex, (same_rank z y) eqn:Ey;
        try reflexivity.
      rewrite (same_rank_precedes z x y Ex Ey) in E. discriminate.
Qed.

Lemma sort_stable (z : SearchResult) (l : list SearchResult) :
  filter (same_rank z) (sort l) = filter (same_rank z) l.
Proof.
  induction l as [|x l IH]; simpl; [reflexivity|].
  rewrite insert_filter, IH. reflexivity.
Qed.

(** ** What [search] returns *)

Lemma rank_nil (max_results : option Z) : rank [] max_results = [].
Proof.
  unfold rank, truncate. simpl. destruct max_results as [n|]; [|reflexivity].
  destruct (Z.ltb 0 n); [apply firstn_nil | reflexivity].
Qed.

Lemma search_returns_rank include_people http query max_results filter_type
      diags rs :
  search include_people http query max_results filter_type
  = (diags, Return rs) ->
  rs = rank (accumulated include_people http query filter_type) max_results.
Proof.
  unfold search, accumulated, shelf_list. destruct http as [reason|data].
  - intros H. injection H as _ <-. simpl. symmetry. apply rank_nil.
  - unfold search_body. intros H. injection H as _ H.
    destruct (shelves_of data) as [shelves|e]; simpl in H; [|discriminate].
    destruct (PyJson.truthy shelves); simpl in H.
    + destruct (PyJson.iter shelves) as [l|e]; simpl in H; [|discriminate].
      destruct (visit_shelves _ _ _ _ l) as [st|e]; simpl in H;
        [|discriminate].
      injection H as <-. reflexivity.
    + injection H as <-. simpl. symmetry. apply rank_nil.
Qed.

(** C3. Whatever list the loops have accumulated and whatever
    [max_results] is, [search] returns that list sorted by score descending,
    equal scores by title ascending in code-point (case-sensitive) order,
    entries with equal score and title in their original order; cut to its
    first [max_results] entries when [max_results] is a positive integer,
    and whole when [max_results] is absent or not positive. *)
Theorem C3_sorted_then_truncated :
  (forall acc : list SearchResult,
      Permutation acc (sort acc) /\
      StronglySorted precedes (sort acc) /\
      (forall x, filter (same_rank x) (sort acc) = filter (same_rank x) acc)) /\
  (forall acc n, 0 < n -> rank acc (Some n) = firstn (Z.to_nat n) (sort acc)) /\
  (forall acc n, n <= 0 -> rank acc (Some n) = sort acc) /\
  (forall acc, rank acc None = sort acc) /\
  (forall include_people http query max_results filter_type diags rs,
      search include_people http query max_results filter_type
      = (diags, Return rs) ->
      rs = rank (accumulated include_people http query filter_type)
                max_results).
Proof.
  split; [|split; [|split; [|split]]].
  - intros acc. split; [apply sort_perm|].
    split; [apply sort_sorted|]. intros x. apply sort_stable.
  - intros acc n Hn. unfold rank, truncate.
    destruct (Z.ltb_spec 0 n); [reflexivity | lia].
  - intros acc n Hn. unfold rank, truncate.
    destruct (Z.ltb_spec 0 n); [lia | reflexivity].
  - reflexivity.
  - apply search_returns_rank.
Qed.

(** ** One visit *)

Lemma key_eqb_eq (a b : PyJson.key) : PyJson.key_eqb a b = true <-> a = b.
Proof.
  destruct a, b; simpl; split; intros H; try congruence; try reflexivity.
  - apply Z.eqb_eq in H. congruence.
  - injection H as ->. apply Z.eqb_refl.
  - apply String.eqb_eq in H. congruence.
  - injection H as ->. apply String.eqb_refl.
Qed.

Lemma key_mem_In (k : PyJson.key) (seen : list PyJson.key) :
  PyJson.key_mem k seen = true <-> In k seen.
Proof.
  unfold PyJson.key_mem. rewrite existsb_exists. split.
  - intros [x [Hx Hk]]. apply key_eqb_eq in Hk. subst x. exact Hx.
  - intros Hk. exists k. split; [exact Hk | apply key_eqb_eq; reflexivity].
Qed.

Lemma key_mem_not_In (k : PyJson.key) (seen : list PyJson.key) :
  PyJson.key_mem k seen = false <-> ~ In k seen.
Proof.
  rewrite <- key_mem_In. destruct (PyJson.key_mem k seen); split; congruence.
Qed.

(** A visit that returns takes one of the four steps. *)
Lemma visit_item_step query filter_type st position item st' :
  visit_item query filter_type st position item = Return st' ->
  item_step query filter_type st position item st'.
Proof.
  unfold visit_item. intros H.
  destruct item as [| | | |xs|kvs]; try discriminate H.
  cbn [PyJson.get bind] in H.
  destruct (PyJson.truthy
              match PyJson.lookup "id" kvs with Some v => v | None => JNull end)
           eqn:Et; cbn [negb] in H.
  - destruct (PyJson.hash
                match PyJson.lookup "id" kvs with Some v => v | None => JNull end)
      as [k|e] eqn:Eh; cbn [bind] in H; [|discriminate H].
    assert (Hkey : item_key (JObj kvs) = Some k).
    { unfold item_key. cbn [PyJson.get]. rewrite Et, Eh. reflexivity. }
    destruct (PyJson.key_mem k (seen_ids st)) eqn:Em.
    + injection H as <-. apply step_duplicate with k; [exact Hkey|].
      apply key_mem_In. exact Em.
    + apply key_mem_not_In in Em.
      destruct (url_rejected
                  match PyJson.lookup "url" kvs with
                  | Some v => v
                  | None => JStr ""
                  end) as [rejected|e] eqn:Eu; cbn [bind] in H;
        [|discriminate H].
      destruct rejected.
      * injection H as <-. apply step_rejected; [exact Hkey | exact Em |].
        unfold item_kept. cbn [PyJson.get bind]. rewrite Eu. reflexivity.
      * destruct (filtered_out filter_type
                    match PyJson.lookup "url" kvs with
                    | Some v => v
                    | None => JStr ""
                    end) as [dropped|e] eqn:Ef; cbn [bind] in H;
          [|discriminate H].
        destruct dropped.
        -- injection H as <-. apply step_rejected; [exact Hkey | exact Em |].
           unfold item_kept. cbn [PyJson.get bind]. rewrite Eu. cbn [bind].
           rewrite Ef. reflexivity.
        -- destruct (score_item
                       match PyJson.lookup "title" kvs with
                       | Some v => v
                       | None => JStr "Unknown"
                       end query position) as [scored|e] eqn:Es;
             cbn [bind] in H; [|discriminate H].
           injection H as <-. apply step_appended; [exact Hkey | exact Em | |].
           ++ unfold item_kept. cbn [PyJson.get bind]. rewrite Eu. cbn [bind].
              rewrite Ef. reflexivity.
           ++ unfold entry_of. cbn [PyJson.get bind]. rewrite Es. reflexivity.
  - injection H as <-. apply step_no_id.
    unfold item_key. cbn [PyJson.get]. rewrite Et. reflexivity.
Qed.

Lemma entry_key query position item r k :
  entry_of query position item = Return r ->
  item_key item = Some k ->
  result_key r = k.
Proof.
  unfold entry_of, item_key, result_key. intros He Hk.
  destruct item as [| | | |xs|kvs]; try discriminate He.
  cbn [PyJson.get bind] in He, Hk.
  destruct (score_item _ query position) as [scored|e]; cbn [bind] in He;
    [|discriminate He].
  injection He as <-. cbn [id].
  destruct (PyJson.truthy _); [|discriminate Hk].
  destruct (PyJson.hash _) as [k'|e]; [|discriminate Hk]. congruence.
Qed.

(** ** A sequence of visits *)

Lemma first_visit_later k visit l1 item :
  item_key (snd visit) <> Some k ->
  first_visit k l1 item ->
  first_visit k (visit :: l1) item.
Proof.
  intros Hne [Hk Hl1]. split; [exact Hk|].
  intros v [<- | Hv]; [exact Hne | apply Hl1; exact Hv].
Qed.

(** What a run of visits that returns has done: it has appended entries
    [new] to [results], it has recorded the identifier of every visited item
    that has one, every appended entry is built from the first visit of its
    identifier, that visit passing the URL validation and the filter, every
    such first visit has appended its entry, and the appended entries carry
    distinct identifiers not seen before the run. *)
Lemma visit_seq_run query filter_type l :
  forall st st',
    visit_seq query filter_type st l = Return st' ->
    exists new,
      results st' = (results st ++ new)%list /\
      (forall k, In k (seen_ids st') <->
                 In k (seen_ids st) \/
                 exists visit, In visit l /\ item_key (snd visit) = Some k) /\
      (forall r, In r new ->
                 exists l1 position item l2,
                   l = (l1 ++ (position, item) :: l2)%list /\
                   first_visit (result_key r) l1 item /\
                   ~ In (result_key r) (seen_ids st) /\
                   item_kept filter_type item = Return true /\
                   entry_of query position item = Return r) /\
      (forall l1 position item l2 k,
          l = (l1 ++ (position, item) :: l2)%list ->
          first_visit k l1 item ->
          ~ In k (seen_ids st) ->
          item_kept filter_type item = Return true ->
          exists r, In r new /\ entry_of query position item = Return r) /\
      NoDup (map result_key new).
Proof.
  induction l as [|[position item] rest IH]; intros st st' Hrun.
  - cbn [visit_seq] in Hrun. injection Hrun as <-. exists [].
    split; [symmetry; apply app_nil_r|].
    split.
    { intros k. split; [intros H; left; exact H|].
      intros [H | [v [[] _]]]. exact H. }
    split; [intros r []|].
    split; [|constructor].
    intros l1 p it l2 k Hl. destruct l1; discriminate Hl.
  - cbn [visit_seq] in Hrun.
    destruct (visit_item query filter_type st position item) as [st1|e] eqn:E1;
      cbn [bind] in Hrun; [|discriminate Hrun].
    apply visit_item_step in E1.
    destruct (IH st1 st' Hrun) as [new1 [Hres [Hseen [Hfrom [Hall Hnd]]]]].
    assert (Hcons :
              forall l1 p it l2,
                (position, item) :: rest = (l1 ++ (p, it) :: l2)%list ->
                (l1 = [] /\ p = position /\ it = item) \/
                exists l1', l1 = (position, item) :: l1' /\
                            rest = (l1' ++ (p, it) :: l2)%list).
    { intros [|v l1'] p it l2 Hl; cbn in Hl.
      - left. injection Hl as -> ->. auto.
      - right. injection Hl as <- ->. exists l1'. auto. }
    inversion E1 as [Hkey | k0 Hkey Hin | k0 Hkey Hnin Hkept
                     | k0 entry Hkey Hnin Hkept Hentry]; subst.
    + (* no identifier *)
      exists new1. split; [exact Hres|]. split.
      { intros k. rewrite Hseen. split.
        - intros [H | [v [Hv Hk]]]; [left; exact H|].
          right. exists v. split; [right; exact Hv | exact Hk].
        - intros [H | [v [[<- | Hv] Hk]]]; [left; exact H | |].
          + cbn [snd] in Hk. congruence.
          + right. exists v. auto. }
      split.
      { intros r Hr.
        destruct (Hfrom r Hr) as [l1 [p [it [l2 [Hl [Hfirst [Hns [Hk He]]]]]]]].
        exists ((position, item) :: l1), p, it, l2.
        split; [rewrite Hl; reflexivity|].
        split; [|auto].
        apply first_visit_later; [|exact Hfirst]. cbn [snd]. congruence. }
      split; [|exact Hnd].
      intros l1 p it l2 k Hl Hfirst Hns Hk.
      destruct (Hcons _ _ _ _ Hl) as [[-> [-> ->]] | [l1' [-> Hrest]]].
      * destruct Hfirst as [Hk' _]. congruence.
      * apply (Hall l1' p it l2 k Hrest); [|exact Hns | exact Hk].
        destruct Hfirst as [Hk' Hl1]. split; [exact Hk'|].
        intros v Hv. apply Hl1. right. exact Hv.
    + (* identifier already seen *)
      exists new1. split; [exact Hres|]. split.
      { intros k. rewrite Hseen. split.
        - intros [H | [v [Hv Hk]]]; [left; exact H|].
          right. exists v. split; [right; exact Hv | exact Hk].
        - intros [H | [v [[<- | Hv] Hk]]]; [left; exact H | |].
          + cbn [snd] in Hk. left. congruence.
          + right. exists v. auto. }
      split.
      { intros r Hr.
        destruct (Hfrom r Hr) as [l1 [p [it [l2 [Hl [Hfirst [Hns [Hk He]]]]]]]].
        exists ((position, item) :: l1), p, it, l2.
        split; [rewrite Hl; reflexivity|].
        split; [|auto].
        apply first_visit_later; [|exact Hfirst]. cbn [snd].
        intros Heq. apply Hns. congruence. }
      split; [|exact Hnd].
      intros l1 p it l2 k Hl Hfirst Hns Hk.
      destruct (Hcons _ _ _ _ Hl) as [[-> [-> ->]] | [l1' [-> Hrest]]].
      * destruct Hfirst as [Hk' _]. exfalso. apply Hns. congruence.
      * apply (Hall l1' p it l2 k Hrest); [|exact Hns | exact Hk].
        destruct Hfirst as [Hk' Hl1]. split; [exact Hk'|].
        intros v Hv. apply Hl1. right. exact Hv.
    + (* identifier recorded, item rejected *)
      cbn [results seen_ids] in *.
      exists new1. split; [exact Hres|]. split.
      { intros k. rewrite Hseen. split.
        - intros [[<- | H] | [v [Hv Hk]]].
          + right. exists (position, item). split; [left; reflexivity|].
            exact Hkey.
          + left. exact H.
          + right. exists v. split; [right; exact Hv | exact Hk].
        - intros [H | [v [[<- | Hv] Hk]]].
          + left. right. exact H.
          + cbn [snd] in Hk. left. left. congruence.
          + right. exists v. auto. }
      split.
      { intros r Hr.
        destruct (Hfrom r Hr) as [l1 [p [it [l2 [Hl [Hfirst [Hns [Hk He]]]]]]]].
        exists ((position, item) :: l1), p, it, l2.
        split; [rewrite Hl; reflexivity|].
        split.
        - apply first_visit_later; [|exact Hfirst]. cbn [snd].
          intros Heq. apply Hns. left. congruence.
        - split; [|auto]. intros Hin. apply Hns. right. exact Hin. }
      split; [|exact Hnd].
      intros l1 p it l2 k Hl Hfirst Hns Hk.
      destruct (Hcons _ _ _ _ Hl) as [[-> [-> ->]] | [l1' [-> Hrest]]].
      * congruence.
      * destruct Hfirst as [Hk' Hl1].
        apply (Hall l1' p it l2 k Hrest); [| |exact Hk].
        -- split; [exact Hk'|]. intros v Hv. apply Hl1. right. exact Hv.
        -- intros [<- | Hin]; [|exact (Hns Hin)].
           apply (Hl1 (position, item)); [left; reflexivity | exact Hkey].
    + (* identifier recorded, entry appended *)
      cbn [results seen_ids] in *.
      exists (entry :: new1).
      split; [rewrite Hres, <- app_assoc; reflexivity|]. split.
      { intros k. rewrite Hseen. split.
        - intros [[<- | H] | [v [Hv Hk]]].
          + right. exists (position, item). split; [left; reflexivity|].
            exact Hkey.
          + left. exact H.
          + right. exists v. split; [right; exact Hv | exact Hk].
        - intros [H | [v [[<- | Hv] Hk]]].
          + left. right. exact H.
          + cbn [snd] in Hk. left. left. congruence.
          + right. exists v. auto. }
      assert (Hnew1 : forall r, In r new1 -> result_key r <> k0).
      { intros r Hr Heq.
        destruct (Hfrom r Hr) as [_ [_ [_ [_ [_ [_ [Hns _]]]]]]].
        apply Hns. left. congruence. }
      split.
      { intros r [<- | Hr].
        - exists [], position, item, rest.
          rewrite (entry_key _ _ _ _ _ Hentry Hkey).
          split; [reflexivity|]. split; [|auto].
          split; [exact Hkey | intros v []].
        - destruct (Hfrom r Hr)
            as [l1 [p [it [l2 [Hl [Hfirst [Hns [Hk He]]]]]]]].
          exists ((position, item) :: l1), p, it, l2.
          split; [rewrite Hl; reflexivity|].
          split.
          + apply first_visit_later; [|exact Hfirst]. cbn [snd].
            intros Heq. apply (Hnew1 r Hr). congruence.
          + split; [|auto]. intros Hin. apply Hns. right. exact Hin. }
      split.
      { intros l1 p it l2 k Hl Hfirst Hns Hk.
        destruct (Hcons _ _ _ _ Hl) as [[-> [-> ->]] | [l1' [-> Hrest]]].
        - exists entry. split; [left; reflexivity | exact Hentry].
        - destruct Hfirst as [Hk' Hl1].
          destruct (Hall l1' p it l2 k Hrest) as [r [Hr He]]; [| |exact Hk|].
          + split; [exact Hk'|]. intros v Hv. apply Hl1. right. exact Hv.
          + intros [<- | Hin]; [|exact (Hns Hin)].
            apply (Hl1 (position, item)); [left; reflexivity | exact Hkey].
          + exists r. split; [right; exact Hr | exact He]. }
      cbn [map]. constructor; [|exact Hnd].
      rewrite (entry_key _ _ _ _ _ Hentry Hkey).
      intros Hin. apply in_map_iff in Hin. destruct Hin as [r [Hk Hr]].
      exact (Hnew1 r Hr Hk).
Qed.

(** ** The nested loops as one sequence of visits *)

Lemma visit_items_enumerate query filter_type items :
  forall st position,
    visit_items query filter_type st position items
    = visit_seq query filter_type st (enumerate position items).
Proof.
  induction items as [|item rest IH]; intros st position; [reflexivity|].
  cbn [visit_items enumerate visit_seq].
  destruct (visit_item query filter_type st position item); cbn [bind];
    [apply IH | reflexivity].
Qed.

Lemma visit_seq_app query filter_type l1 l2 :
  forall st,
    visit_seq query filter_type st (l1 ++ l2)
    = (st1 <- visit_seq query filter_type st l1 ;;
       visit_seq query filter_type st1 l2).
Proof.
  induction l1 as [|[position item] l1 IH]; intros st; [reflexivity|].
  cbn [app visit_seq].
  destruct (visit_item query filter_type st position item); cbn [bind];
    [apply IH | reflexivity].
Qed.

Lemma visit_shelves_flat include_people query filter_type shelves :
  forall st st',
    visit_shelves include_people query filter_type st shelves = Return st' ->
    exists l,
      visits include_people shelves = Return l /\
      visit_seq query filter_type st l = Return st'.
Proof.
  induction shelves as [|shelf rest IH]; intros st st' H.
  - cbn in H. injection H as <-. exists []. split; reflexivity.
  - cbn [visit_shelves] in H. unfold visit_shelf in H.
    destruct (shelf_items include_people shelf) as [items|e] eqn:Ei;
      cbn [bind] in H; [|discriminate H].
    destruct (visit_items query filter_type st 0 items) as [st1|e] eqn:E1;
      cbn [bind] in H; [|discriminate H].
    destruct (IH st1 st' H) as [later [Hlater Hseq]].
    exists (enumerate 0 items ++ later)%list. split.
    + cbn [visits]. rewrite Ei. cbn [bind]. rewrite Hlater. reflexivity.
    + rewrite visit_seq_app, <- visit_items_enumerate, E1. exact Hseq.
Qed.

Lemma enumerate_In items :
  forall start position item,
    In (position, item) (enumerate start items) <->
    exists i, position = (start + i)%nat /\ nth_error items i = Some item.
Proof.
  induction items as [|x rest IH]; intros start position item; cbn.
  - split; [intros [] | intros [[|i] [_ H]]; discriminate H].
  - rewrite IH. split.
    + intros [H | [i [-> Hi]]].
      * injection H as <- <-. exists 0%nat. split; [lia | reflexivity].
      * exists (S i). split; [lia | exact Hi].
    + intros [[|i] [-> Hi]].
      * cbn in Hi. injection Hi as <-. left. f_equal. lia.
      * right. exists i. split; [lia | exact Hi].
Qed.

(** The visits are the items of the shelves that are not skipped, each at
    its position within its own shelf. *)
Lemma visits_In include_people shelves :
  forall l position item,
    visits include_people shelves = Return l ->
    (In (position, item) l <->
     exists shelf items,
       In shelf shelves /\
       shelf_items include_people shelf = Return items /\
       nth_error items position = Some item).
Proof.
  induction shelves as [|shelf rest IH]; intros l position item H.
  - cbn in H. injection H as <-. split; [intros [] | intros [s [i [[] _]]]].
  - cbn [visits] in H.
    destruct (shelf_items include_people shelf) as [items|e] eqn:Ei;
      cbn [bind] in H; [|discriminate H].
    destruct (visits include_people rest) as [later|e] eqn:El;
      cbn [bind] in H; [|discriminate H].
    injection H as <-. rewrite in_app_iff, enumerate_In.
    rewrite (IH later position item eq_refl). split.
    + intros [[i [-> Hi]] | [s [its [Hs [Hits Hnth]]]]].
      * exists shelf, items. split; [left; reflexivity|]. auto.
      * exists s, its. split; [right; exact Hs|]. auto.
    + intros [s [its [[<- | Hs] [Hits Hnth]]]].
      * left. exists position. split; [reflexivity|]. congruence.
      * right. exists s, its. auto.
Qed.

(** A search that returns has run the visits of the response from the empty
    state and ranked what they accumulated. *)
Lemma search_run include_people http query max_results filter_type diags rs :
  search include_people http query max_results filter_type
  = (diags, Return rs) ->
  exists st,
    visits include_people (shelf_list http)
    = Return (visited include_people http) /\
    visit_seq query filter_type (mkState [] []) (visited include_people http)
    = Return st /\
    rs = rank (results st) max_results.
Proof.
  intros H.
  assert (Hloop : exists st,
             visit_shelves include_people query filter_type (mkState [] [])
                           (shelf_list http) = Return st /\
             rs = rank (results st) max_results).
  { unfold search, shelf_list in *. destruct http as [reason|data].
    - injection H as _ <-. exists (mkState [] []).
      split; [reflexivity | symmetry; apply rank_nil].
    - unfold search_body in H. injection H as _ H.
      destruct (shelves_of data) as [shelves|e]; cbn [bind] in H;
        [|discriminate H].
      destruct (PyJson.truthy shelves); cbn [negb] in H.
      + destruct (PyJson.iter shelves) as [l|e]; cbn [bind] in H;
          [|discriminate H].
        destruct (visit_shelves _ _ _ _ l) as [st|e]; cbn [bind] in H;
          [|discriminate H].
        injection H as <-. exists st. split; reflexivity.
      + injection H as <-. exists (mkState [] []).
        split; [reflexivity | symmetry; apply rank_nil]. }
  destruct Hloop as [st [Hloop Hrs]].
  destruct (visit_shelves_flat _ _ _ _ _ _ Hloop) as [l [Hl Hseq]].
  exists st. unfold visited. rewrite Hl. auto.
Qed.

Lemma In_rank r l max_results : In r (rank l max_results) -> In r l.
Proof.
  unfold rank, truncate. intros H.
  assert (Hs : In r (sort l)).
  { destruct max_results as [n|]; [|exact H].
    destruct (Z.ltb 0 n); [|exact H].
    rewrite <- (firstn_skipn (Z.to_nat n) (sort l)).
    apply in_or_app. left. exact H. }
  eapply Permutation_in; [apply Permutation_sym, sort_perm | exact Hs].
Qed.

Lemma NoDup_rank (f : SearchResult -> PyJson.key) l max_results :
  NoDup (map f l) -> NoDup (map f (rank l max_results)).
Proof.
  intros H.
  assert (Hs : NoDup (map f (sort l))).
  { eapply Permutation_NoDup; [|exact H].
    apply Permutation_map, sort_perm. }
  unfold rank, truncate. destruct max_results as [n|]; [|exact Hs].
  destruct (Z.ltb 0 n); [|exact Hs].
  rewrite <- (firstn_skipn (Z.to_nat n) (sort l)), map_app in Hs.
  eapply NoDup_app_remove_r. exact Hs.
Qed.

Lemma NoDup_ids (l : list SearchResult) :
  NoDup (map result_key l) -> NoDup (map id l).
Proof.
  induction l as [|r l IH]; cbn [map]; intros H; [constructor|].
  inversion H as [|k ks Hnin Hnd]; subst.
  constructor; [|apply IH; exact Hnd].
  intros Hin. apply Hnin. apply in_map_iff in Hin.
  destruct Hin as [r' [Hid Hr']]. apply in_map_iff. exists r'.
  split; [|exact Hr']. unfold result_key. rewrite Hid. reflexivity.
Qed.

Lemma first_visit_unique k :
  forall l1 l1' (v v' : nat * json) l2 l2',
    (l1 ++ v :: l2 = l1' ++ v' :: l2')%list ->
    first_visit k l1 (snd v) -> first_visit k l1' (snd v') ->
    v = v'.
Proof.
  induction l1 as [|x l1 IH]; intros [|x' l1'] v v' l2 l2' Hl H1 H2;
    cbn in Hl.
  - congruence.
  - injection Hl as -> _. destruct H1 as [Hk _], H2 as [_ Hl1'].
    exfalso. apply (Hl1' x'); [left; reflexivity | exact Hk].
  - injection Hl as -> _. destruct H2 as [Hk _], H1 as [_ Hl1].
    exfalso. apply (Hl1 v'); [left; reflexivity | exact Hk].
  - injection Hl as -> Hl. apply (IH l1' v v' l2 l2' Hl).
    + destruct H1 as [Hk Hl1]. split; [exact Hk|].
      intros y Hy. apply Hl1. right. exact Hy.
    + destruct H2 as [Hk Hl1']. split; [exact Hk|].
      intros y Hy. apply Hl1'. right. exact Hy.
Qed.

Lemma entry_fields query position item r :
  entry_of query position item = Return r ->
  PyJson.get item "id" JNull = Return (id r) /\
  PyJson.get item "title" (JStr "Unknown") = Return (JStr (title r)) /\
  PyJson.get item "type" (JStr "Unknown") = Return (raw_type r) /\
  PyJson.get item "localizedType" (raw_type r) = Return (type r) /\
  PyJson.get item "url" (JStr "") = Return (url r) /\
  score r = _score_result (title r) query (Z.of_nat position).
Proof.
  unfold entry_of. intros H.
  destruct item as [| | | |xs|kvs]; try discriminate H.
  cbn [PyJson.get bind] in *.
  destruct (match PyJson.lookup "title" kvs with
            | Some v => v
            | None => JStr "Unknown"
            end) as [| | |t| |]; try discriminate H.
  cbn [score_item bind fst snd] in H. injection H as <-.
  cbn [id title raw_type type url score]. repeat split; reflexivity.
Qed.

Lemma rank_keeps r l max_results :
  In r l ->
  In r (rank l max_results) \/
  exists n, max_results = Some n /\ 0 < n /\
            List.length (rank l max_results) = Z.to_nat n.
Proof.
  intros H.
  assert (Hs : In r (sort l)) by (eapply Permutation_in; [apply sort_perm | exact H]).
  unfold rank, truncate. destruct max_results as [n|]; [|left; exact Hs].
  destruct (Z.ltb_spec 0 n) as [Hn|Hn]; [|left; exact Hs].
  destruct (Nat.le_gt_cases (List.length (sort l)) (Z.to_nat n)) as [Hle|Hgt].
  - left. rewrite firstn_all2; [exact Hs | exact Hle].
  - right. exists n. split; [reflexivity|]. split; [exact Hn|].
    apply firstn_length_le. lia.
Qed.

(** C2, as stated, fails: identifiers are recorded only for the items of
    the shelves that are visited. Here the identifier ["p1"] occurs first in
    a people shelf, which is skipped with include-people unset; it is not
    recorded there, and its later occurrence is returned. *)
Lemma C2_skipped_shelf_records_nothing :
  visited true people_then_top = [(0%nat, ted_person); (0%nat, ted_lasso)] /\
  item_key ted_person = Some (PyJson.KStr "p1") /\
  item_key ted_lasso = Some (PyJson.KStr "p1") /\
  search false people_then_top "ted" None None
  = ([], Return [mkResult 650 (JStr "p1") "Ted Lasso" (JStr "Movie")
                          (JStr "Movie") (JStr "/show/ted-lasso")]).
Proof. repeat split. Qed.

(** C2, amended. Among the items of the shelves that are visited (all
    shelves but the skipped people shelves), every non-empty identifier is
    recorded at its first visit whether or not that item is kept: each
    returned entry is built from the first visit of its identifier, and an
    identifier whose first visit is rejected by the URL validation or the
    type filter is on no returned entry, whatever follows. Hence the
    identifiers of the returned list are pairwise distinct. *)
Theorem C2_first_visit_wins :
  forall include_people http query max_results filter_type diags rs,
    search include_people http query max_results filter_type
    = (diags, Return rs) ->
    NoDup (map id rs) /\
    (forall r, In r rs ->
       exists l1 position item l2,
         visited include_people http = (l1 ++ (position, item) :: l2)%list /\
         first_visit (result_key r) l1 item /\
         item_kept filter_type item = Return true /\
         entry_of query position item = Return r) /\
    (forall l1 position item l2 k,
        visited include_people http = (l1 ++ (position, item) :: l2)%list ->
        first_visit k l1 item ->
        item_kept filter_type item = Return false ->
        forall r, In r rs -> result_key r <> k).
Proof.
  intros include_people http query max_results filter_type diags rs H.
  destruct (search_run _ _ _ _ _ _ _ H) as [st [_ [Hseq ->]]].
  destruct (visit_seq_run _ _ _ _ _ Hseq)
    as [new [Hres [_ [Hfrom [_ Hnd]]]]].
  cbn [results app] in Hres. rewrite Hres.
  assert (Hsrc : forall r, In r (rank new max_results) ->
            exists l1 position item l2,
              visited include_people http = (l1 ++ (position, item) :: l2)%list /\
              first_visit (result_key r) l1 item /\
              item_kept filter_type item = Return true /\
              entry_of query position item = Return r).
  { intros r Hr. apply In_rank in Hr.
    destruct (Hfrom r Hr) as [l1 [p [it [l2 [Hl [Hfirst [_ [Hk He]]]]]]]].
    exists l1, p, it, l2. auto. }
  split; [apply NoDup_ids, NoDup_rank, Hnd|].
  split; [exact Hsrc|].
  intros l1 p it l2 k Hl Hfirst Hrej r Hr Heq.
  destruct (Hsrc r Hr) as [l1' [p' [it' [l2' [Hl' [Hfirst' [Hk' _]]]]]]].
  rewrite Heq in Hfirst'. rewrite Hl in Hl'.
  pose proof (first_visit_unique k l1 l1' (p, it) (p', it') l2 l2'
                                 Hl' Hfirst Hfirst') as Hsame.
  injection Hsame as _ <-. congruence.
Qed.

Lemma C2_witness :
  NoDup (map id
             [mkResult 1150 (JStr "X123") "Foundation" (JStr "Movie")
                       (JStr "Movie") (JStr "/movie/foundation");
              mkResult 649 (JStr "Y456") "Foundation II" (JStr "Movie")
                       (JStr "Movie") (JStr "/show/foundation-ii")]).
Proof.
  apply (C2_first_visit_wins false two_shelves "Foundation" None None []).
  vm_compute. reflexivity.
Defined.

Example burned_identifier :
  search false burned_id "Bar" None None = ([], Return []).
Proof. reflexivity. Qed.

(** C10. The score is never negative and never below the position bonus;
    so every entry [search] returns has a score of at least
    [max(0, 100 - position)], and so at least 0, for the position of its
    item within its shelf. *)
Theorem C10_score_nonnegative :
  (forall title query position,
      0 <= _score_result title query position /\
      Z.max 0 (100 - position) <= _score_result title query position) /\
  (forall include_people http query max_results filter_type diags rs r,
      search include_people http query max_results filter_type
      = (diags, Return rs) ->
      In r rs ->
      0 <= score r /\
      exists shelf items position item,
        In shelf (shelf_list http) /\
        shelf_items include_people shelf = Return items /\
        nth_error items position = Some item /\
        entry_of query position item = Return r /\
        Z.max 0 (100 - Z.of_nat position) <= score r).
Proof.
  split; [exact score_lower_bound|].
  intros include_people http query max_results filter_type diags rs r H Hr.
  destruct (search_run _ _ _ _ _ _ _ H) as [st [Hvisits [Hseq ->]]].
  destruct (visit_seq_run _ _ _ _ _ Hseq) as [new [Hres [_ [Hfrom _]]]].
  cbn [results app] in Hres. rewrite Hres in Hr. apply In_rank in Hr.
  destruct (Hfrom r Hr) as [l1 [p [it [l2 [Hl [_ [_ [_ He]]]]]]]].
  destruct (entry_fields _ _ _ _ He) as [_ [_ [_ [_ [_ Hscore]]]]].
  pose proof (score_lower_bound (title r) query (Z.of_nat p)) as [H0 Hp].
  rewrite <- Hscore in H0, Hp. split; [exact H0|].
  assert (Hin : In (p, it) (visited include_people http)).
  { rewrite Hl. apply in_or_app. right. left. reflexivity. }
  apply (visits_In _ _ _ p it Hvisits) in Hin.
  destruct Hin as [shelf [items [Hs [Hits Hnth]]]].
  exists shelf, items, p, it. auto.
Qed.

Lemma C10_witness :
  0 <= 649 /\
  exists shelf items position item,
    In shelf (shelf_list two_shelves) /\
    shelf_items false shelf = Return items /\
    nth_error items position = Some item /\
    entry_of "Foundation" position item
    = Return (mkResult 649 (JStr "Y456") "Foundation II" (JStr "Movie")
                       (JStr "Movie") (JStr "/show/foundation-ii")) /\
    Z.max 0 (100 - Z.of_nat position) <= 649.
Proof.
  apply (proj2 C10_score_nonnegative false two_shelves "Foundation" None None []
               [mkResult 1150 (JStr "X123") "Foundation" (JStr "Movie")
                         (JStr "Movie") (JStr "/movie/foundation");
                mkResult 649 (JStr "Y456") "Foundation II" (JStr "Movie")
                         (JStr "Movie") (JStr "/show/foundation-ii")]
               (mkResult 649 (JStr "Y456") "Foundation II" (JStr "Movie")
                         (JStr "Movie") (JStr "/show/foundation-ii"))).
  - vm_compute. reflexivity.
  - right. left. reflexivity.
Defined.

Example sort_is_case_sensitive :
  map title (sort three_entries) = ["Zebra"; "apple"; "b"].
Proof. reflexivity. Qed.

Lemma C3_witness :
  rank three_entries (Some 2) = firstn 2 (sort three_entries) /\
  rank three_entries (Some (-1)) = sort three_entries /\
  [mkResult 1150 (JStr "X123") "Foundation" (JStr "Movie") (JStr "Movie")
            (JStr "/movie/foundation")]
  = rank (accumulated false two_shelves "Foundation" None) (Some 1).
Proof.
  pose proof C3_sorted_then_truncated as [_ [Hpos [Hneg [_ Hsearch]]]].
  split; [apply Hpos; lia|].
  split; [apply Hneg; lia|].
  apply (Hsearch false two_shelves "Foundation" (Some 1) None []).
  vm_compute. reflexivity.
Defined.

(** ** The type filter *)

Lemma validated_url_is_container url :
  url_rejected url = Return false ->
  exists is_show is_movie,
    PyJson.contains "/show/" url = Return is_show /\
    PyJson.contains "/movie/" url = Return is_movie.
Proof.
  unfold url_rejected. intros H.
  destruct (PyJson.truthy url) eqn:Et; cbn [negb] in H; [|discriminate H].
  destruct url as [|b|n|s|xs|kvs]; cbn [PyJson.contains bind] in *;
    try discriminate H; eauto.
Qed.

(** C4, as stated, fails: a filter value other than movie, show and series
    takes neither [continue], so the item is kept. *)
Lemma C4_other_filter_value_keeps :
  filtered_out (Some "person") (JStr "/movie/foo") = Return false /\
  item_kept (Some "person") foo_movie = Return true /\
  search false up_next "Foo" None (Some "person")
  = ([], Return [mkResult 1150 (JStr "m1") "Foo" (JStr "Movie") (JStr "Movie")
                          (JStr "/movie/foo");
                 mkResult 99 (JStr "p1") "Bar" (JStr "Movie") (JStr "Movie")
                          (JStr "/person/bar")]).
Proof. repeat split. Qed.

(** C4, amended. For an item that passed the URL validation and a filter
    that is set (a non-empty string, compared in lower case): with movie the
    item is kept exactly when its URL contains [/movie/]; with show or
    series, exactly when its URL contains [/show/]; with any other value
    the item is kept. The filter never raises on such an item. *)
Theorem C4_type_filter :
  forall ft url,
    given (Some ft) = true ->
    url_rejected url = Return false ->
    (exists dropped, filtered_out (Some ft) url = Return dropped) /\
    (Py.lower ft = "movie" ->
     (filtered_out (Some ft) url = Return false <->
      PyJson.contains "/movie/" url = Return true)) /\
    (Py.lower ft = "show" \/ Py.lower ft = "series" ->
     (filtered_out (Some ft) url = Return false <->
      PyJson.contains "/show/" url = Return true)) /\
    (Py.lower ft <> "movie" -> Py.lower ft <> "show" ->
     Py.lower ft <> "series" ->
     filtered_out (Some ft) url = Return false).
Proof.
  intros ft url Hgiven Hvalid.
  destruct (validated_url_is_container url Hvalid)
    as [is_show [is_movie [Hshow Hmovie]]].
  unfold filtered_out. rewrite Hgiven. cbn [text].
  rewrite Hmovie, Hshow. cbn [bind].
  split.
  { destruct (String.eqb (Py.lower ft) "movie" && negb is_movie); eauto.
    destruct ((String.eqb (Py.lower ft) "show"
               || String.eqb (Py.lower ft) "series") && negb is_show); eauto. }
  split.
  { intros ->. cbn. destruct is_movie; cbn; split; congruence. }
  split.
  { intros [-> | ->]; cbn; destruct is_show; cbn; split; congruence. }
  intros Hm Hs Hse.
  apply String.eqb_neq in Hm, Hs, Hse. rewrite Hm, Hs, Hse. reflexivity.
Qed.

Lemma C4_witness :
  (exists dropped,
      filtered_out (Some "Movie") (JStr "/show/severance") = Return dropped) /\
  (filtered_out (Some "Movie") (JStr "/show/severance") = Return false <->
   PyJson.contains "/movie/" (JStr "/show/severance") = Return true).
Proof.
  pose proof (C4_type_filter "Movie" (JStr "/show/severance")
                             eq_refl eq_refl) as [H1 [H2 _]].
  split; [exact H1 | exact (H2 eq_refl)].
Defined.

Example filter_by_type :
  map title (snd (match search false two_shelves "Foundation" None (Some "movie")
                  with (d, Return rs) => (d, rs) | (d, Raise _) => (d, []) end))
  = ["Foundation"] /\
  map title (snd (match search false two_shelves "Foundation" None (Some "show")
                  with (d, Return rs) => (d, rs) | (d, Raise _) => (d, []) end))
  = ["Foundation II"] /\
  map title (snd (match search false two_shelves "Foundation" None (Some "series")
                  with (d, Return rs) => (d, rs) | (d, Raise _) => (d, []) end))
  = ["Foundation II"].
Proof. repeat split. Qed.

(** ** People shelves *)

(** C5, as stated, fails: the marker ["PN"] is looked for as written, in
    upper case. A shelf identifier that holds it in another case is not
    skipped, and its items are returned. *)
Lemma C5_PN_is_case_sensitive :
  Py.contains (Py.lower "PN") (Py.lower "uts.col.UpNext") = true /\
  shelf_skipped false (JStr "uts.col.UpNext") = Return false /\
  search false up_next "Foo" None None
  = ([], Return [mkResult 1150 (JStr "m1") "Foo" (JStr "Movie") (JStr "Movie")
                          (JStr "/movie/foo");
                 mkResult 99 (JStr "p1") "Bar" (JStr "Movie") (JStr "Movie")
                          (JStr "/person/bar")]).
Proof. repeat split. Qed.

(** C5, amended. With include-people unset, a shelf is skipped, and with it
    every one of its items, exactly when its identifier contains ["PN"] as
    written (case-sensitive) or contains ["people"] in any case; with
    include-people set no shelf is skipped. A skipped shelf leaves the
    results and the seen identifiers as they were; any other shelf has its
    items visited from position 0. *)
Theorem C5_people_shelf_skipped :
  (forall include_people sid,
      shelf_skipped include_people (JStr sid)
      = Return (negb include_people
                && (Py.contains "PN" sid
                    || Py.contains "people" (Py.lower sid)))) /\
  (forall shelf_id, shelf_skipped true shelf_id = Return false) /\
  (forall include_people query filter_type st shelf shelf_id,
      PyJson.get shelf "id" (JStr "") = Return shelf_id ->
      shelf_skipped include_people shelf_id = Return true ->
      shelf_items include_people shelf = Return [] /\
      visit_shelf include_people query filter_type st shelf = Return st) /\
  (forall include_people query filter_type st shelf shelf_id,
      PyJson.get shelf "id" (JStr "") = Return shelf_id ->
      shelf_skipped include_people shelf_id = Return false ->
      visit_shelf include_people query filter_type st shelf
      = (items <- PyJson.get shelf "items" (JArr []) ;;
         l <- PyJson.iter items ;;
         visit_items query filter_type st 0 l)).
Proof.
  split; [|split; [|split]].
  - intros [|] sid; unfold shelf_skipped, is_people_shelf;
      cbn [negb andb PyJson.contains PyJson.lower bind]; [reflexivity|].
    destruct (Py.contains "PN" sid); reflexivity.
  - reflexivity.
  - intros include_people query filter_type st shelf shelf_id Hid Hskip.
    unfold visit_shelf, shelf_items. rewrite Hid. cbn [bind].
    rewrite Hskip. cbn [bind]. split; reflexivity.
  - intros include_people query filter_type st shelf shelf_id Hid Hskip.
    unfold visit_shelf, shelf_items. rewrite Hid. cbn [bind].
    rewrite Hskip. cbn [bind].
    destruct (PyJson.get shelf "items" (JArr [])); reflexivity.
Qed.

Lemma C5_witness :
  shelf_items false (sample_shelf "uts.col.Featured.PN" [ted_person])
  = Return [] /\
  visit_shelf false "ted" None (mkState [] [])
              (sample_shelf "uts.col.Featured.PN" [ted_person])
  = Return (mkState [] []).
Proof.
  apply (proj1 (proj2 (proj2 C5_people_shelf_skipped))
               false "ted" None (mkState [] [])
               (sample_shelf "uts.col.Featured.PN" [ted_person])
               (JStr "uts.col.Featured.PN"));
    reflexivity.
Defined.

Example people_shelf_excluded :
  search false people_then_top "ted" None None
  = ([], Return [mkResult 650 (JStr "p1") "Ted Lasso" (JStr "Movie")
                          (JStr "Movie") (JStr "/show/ted-lasso")]) /\
  search true people_then_top "ted" None None
  = ([], Return [mkResult 650 (JStr "p1") "Ted (person)" (JStr "Movie")
                          (JStr "Movie") (JStr "/person/ted")]).
Proof. split; reflexivity. Qed.

(** ** The region resolver *)

Section ResolverFacts.

Variable repr_container : json -> string.

(** A transport failure is reported and resolves to nothing. *)
Lemma resolver_request_failure reason region :
  get_storefront_for_region repr_container (Failed reason) region
  = ([ErrorFetchingStorefronts (RequestException reason)], None).
Proof. reflexivity. Qed.

(** The resolver returns or reports; no exception leaves it. A body that is
    not a [dict], or whose ["data"] is not one, is reported and resolves to
    nothing. *)
Lemma resolver_shape_failure data region e :
  storefront_lookup repr_container data region = Raise e ->
  get_storefront_for_region repr_container (Body data) region
  = ([ErrorFetchingStorefronts (PythonError e)], None).
Proof. unfold get_storefront_for_region. intros ->. reflexivity. Qed.

(** A region the directory does not list resolves to nothing. *)
Lemma resolver_unknown_region directory region :
  PyJson.lookup (Py.upper region) directory = None ->
  get_storefront_for_region repr_container
    (Body (JObj [("data", JObj directory)])) region
  = ([], None).
Proof.
  unfold get_storefront_for_region, storefront_lookup.
  cbn [PyJson.get PyJson.lookup String.eqb bind]. cbn. intros ->. reflexivity.
Qed.

(** When the resolver finds nothing the constructor warns and selects the
    US storefront. *)
Lemma init_falls_back http region err :
  given (Some region) = true ->
  get_storefront_for_region repr_container http region = (err, None) ->
  init_storefront repr_container http None (Some region)
  = ((err ++ [WarningFallbackToUS region])%list, "143441").
Proof.
  unfold init_storefront. intros Hr Hnone. rewrite Hr. cbn [given negb andb text].
  rewrite Hnone. reflexivity.
Qed.

(** A present storefront is used as it is and no request is made. *)
Lemma init_keeps_storefront http sid region :
  given (Some sid) = true ->
  init_storefront repr_container http (Some sid) region = ([], sid).
Proof.
  unfold init_storefront. intros Hs. rewrite Hs, andb_false_r. cbn [negb text].
  cbn [given] in Hs. destruct (String.eqb sid ""); [discriminate Hs|reflexivity].
Qed.

(** C7, on the code: a region record without ["storefrontId"] is a missing
    key, yet the resolver returns the text ["None"] for it, [str(None)],
    instead of nothing; the constructor then takes ["None"] for the
    storefront, without warning and without falling back to ["143441"]. A
    listed region resolves to its identifier as text, and an unlisted one
    makes the constructor warn and select ["143441"]. *)
Theorem C7_missing_storefrontId_resolves_to_None_text :
  get_storefront_for_region repr_container storefronts_without_id "us"
  = ([], Some "None") /\
  init_storefront repr_container storefronts_without_id None (Some "us")
  = ([], "None") /\
  get_storefront_for_region repr_container storefronts "gb"
  = ([], Some "143444") /\
  init_storefront repr_container storefronts None (Some "zz")
  = ([WarningFallbackToUS "zz"], "143441").
Proof. repeat split. Qed.

End ResolverFacts.

(** ** Failures of the search request and of the response shape *)

(** A failed request is reported and yields the empty list. *)
Lemma search_request_failure include_people reason query max_results filter_type :
  search include_people (Failed reason) query max_results filter_type
  = ([ErrorFailedToSearch reason], Return []).
Proof. reflexivity. Qed.

(** A body without shelves, or with an empty shelf list, yields the empty
    list. *)
Lemma search_no_shelves include_people data query max_results filter_type shelves :
  shelves_of data = Return shelves ->
  PyJson.truthy shelves = false ->
  search include_people (Body data) query max_results filter_type
  = ([], Return []).
Proof.
  unfold search, search_body. intros -> Ht. cbn [bind]. rewrite Ht. reflexivity.
Qed.

Example search_absent_shelves :
  search false (Body (JObj [])) "Foundation" None None = ([], Return []) /\
  search false (sample_body []) "Foundation" None None = ([], Return []).
Proof. split; reflexivity. Qed.

(** C8, on the code: only [requests.RequestException] is caught, and the
    body is walked outside the [try]. A body whose ["canvas"] is [null], a
    body that is a list, and a shelf whose ["id"] is [null] each make
    [search] raise instead of returning the empty list. *)
Theorem C8_unexpected_shape_raises :
  search false canvas_null "Foundation" None None
  = ([], Raise AttributeError) /\
  search false (Body (JArr [])) "Foundation" None None
  = ([], Raise AttributeError) /\
  search false shelf_id_null "Foundation" None None
  = ([], Raise TypeError).
Proof. repeat split. Qed.

(** ** Person items outside people shelves *)

Lemma person_url_validated u :
  Py.contains "/person/" u = true -> url_rejected (JStr u) = Return false.
Proof.
  intros H. unfold url_rejected.
  assert (Ht : PyJson.truthy (JStr u) = true).
  { destruct u; [discriminate H | reflexivity]. }
  rewrite Ht. cbn [negb PyJson.contains bind].
  destruct (Py.contains "/show/" u); [reflexivity|].
  destruct (Py.contains "/movie/" u); [reflexivity|].
  rewrite H. reflexivity.
Qed.

(** C9, as stated, fails: a person item that passes the URL validation in a
    shelf that is not skipped is still absent from the returned list when
    [max_results] cuts it off, and when its identifier was recorded by an
    earlier item. *)
Lemma C9_person_item_not_returned :
  shelf_skipped false (JStr "uts.col.UpNext") = Return false /\
  item_kept None bar_person = Return true /\
  search false up_next "Foo" (Some 1) None
  = ([], Return [mkResult 1150 (JStr "m1") "Foo" (JStr "Movie") (JStr "Movie")
                          (JStr "/movie/foo")]) /\
  search false burned_id "Bar" None None = ([], Return []).
Proof. repeat split. Qed.

(** C9, amended. include-people acts on shelves only. With include-people
    unset and no type filter, an item whose URL contains [/person/], in a
    shelf whose identifier matches neither people marker, is visited and
    passes the URL validation; when it is the first visited item with its
    identifier (so it has one), its entry is in the returned list, unless
    [max_results] has cut the list, which then has [max_results] entries. *)
Theorem C9_person_item_outside_people_shelf :
  forall http query max_results diags rs shelf sid items position item u,
    search false http query max_results None = (diags, Return rs) ->
    In shelf (shelf_list http) ->
    PyJson.get shelf "id" (JStr "") = Return (JStr sid) ->
    Py.contains "PN" sid = false ->
    Py.contains "people" (Py.lower sid) = false ->
    PyJson.get shelf "items" (JArr []) = Return (JArr items) ->
    nth_error items position = Some item ->
    PyJson.get item "url" (JStr "") = Return (JStr u) ->
    Py.contains "/person/" u = true ->
    url_rejected (JStr u) = Return false /\
    item_kept None item = Return true /\
    In (position, item) (visited false http) /\
    (forall l1 l2 k,
        visited false http = (l1 ++ (position, item) :: l2)%list ->
        first_visit k l1 item ->
        exists r,
          entry_of query position item = Return r /\
          url r = JStr u /\
          (In r rs \/
           exists n, max_results = Some n /\ 0 < n /\
                     List.length rs = Z.to_nat n)).
Proof.
  intros http query max_results diags rs shelf sid items position item u
         H Hshelf Hid Hpn Hpeople Hitems Hnth Hurl Hperson.
  pose proof (person_url_validated u Hperson) as Hvalid.
  assert (Hkept : item_kept None item = Return true).
  { unfold item_kept. rewrite Hurl. cbn [bind]. rewrite Hvalid. reflexivity. }
  destruct (search_run _ _ _ _ _ _ _ H) as [st [Hvisits [Hseq ->]]].
  split; [exact Hvalid|]. split; [exact Hkept|]. split.
  { apply (visits_In _ _ _ position item Hvisits).
    exists shelf, items. split; [exact Hshelf|]. split; [|exact Hnth].
    unfold shelf_items. rewrite Hid. cbn [bind].
    unfold shelf_skipped, is_people_shelf.
    cbn [negb PyJson.contains PyJson.lower bind]. rewrite Hpn, Hpeople.
    cbn [bind]. rewrite Hitems. reflexivity. }
  intros l1 l2 k Hl Hfirst.
  destruct (visit_seq_run _ _ _ _ _ Hseq) as [new [Hres [_ [_ [Hall _]]]]].
  cbn [results seen_ids app] in Hres, Hall.
  destruct (Hall l1 position item l2 k Hl Hfirst (fun F => F) Hkept)
    as [r [Hr He]].
  exists r. split; [exact He|]. split.
  - destruct (entry_fields _ _ _ _ He) as [_ [_ [_ [_ [Hu _]]]]]. congruence.
  - rewrite Hres. apply rank_keeps. exact Hr.
Qed.

Lemma C9_witness :
  exists r,
    entry_of "Foo" 1 bar_person = Return r /\
    url r = JStr "/person/bar" /\
    (In r [mkResult 1150 (JStr "m1") "Foo" (JStr "Movie") (JStr "Movie")
                    (JStr "/movie/foo");
           mkResult 99 (JStr "p1") "Bar" (JStr "Movie") (JStr "Movie")
                    (JStr "/person/bar")] \/
     exists n, None = Some n /\ 0 < n /\ 2%nat = Z.to_nat n).
Proof.
  refine (proj2 (proj2 (proj2
            (C9_person_item_outside_people_shelf
               up_next "Foo" None []
               [mkResult 1150 (JStr "m1") "Foo" (JStr "Movie") (JStr "Movie")
                         (JStr "/movie/foo");
                mkResult 99 (JStr "p1") "Bar" (JStr "Movie") (JStr "Movie")
                         (JStr "/person/bar")]
               (sample_shelf "uts.col.UpNext" [foo_movie; bar_person])
               "uts.col.UpNext" [foo_movie; bar_person] 1 bar_person
               "/person/bar" _ _ _ _ _ _ _ _ _)))
            [(0%nat, foo_movie)] [] (PyJson.KStr "p1") _ _);
    try (vm_compute; reflexivity).
  - left. reflexivity.
  - split; [reflexivity|]. intros v [<- | []]. discriminate.
Defined.

(** * Further properties of the code *)

(** ** Letter case *)


Lemma upper_char_lower_char (c : ascii) :
  Py.upper_char (Py.lower_char c) = Py.upper_char c.
Proof.
  destruct c as [[] [] [] [] [] [] [] []]; vm_compute; reflexivity.
Qed.

Lemma upper_char_idem (c : ascii) :
  Py.upper_char (Py.upper_char c) = Py.upper_char c.
Proof.
  destruct c as [[] [] [] [] [] [] [] []]; vm_compute; reflexivity.
Qed.


Lemma upper_lower (s : string) : Py.upper (Py.lower s) = Py.upper s.
Proof.
  induction s as [|c s IH]; cbn [Py.lower Py.upper]; [reflexivity|].
  rewrite upper_char_lower_char, IH. reflexivity.
Qed.

Lemma upper_idem (s : string) : Py.upper (Py.upper s) = Py.upper s.
Proof.
  induction s as [|c s IH]; cbn [Py.upper]; [reflexivity|].
  rewrite upper_char_idem, IH. reflexivity.
Qed.


Lemma score_by_lowered t1 t2 q1 q2 position :
  Py.lower t1 = Py.lower t2 -> Py.lower q1 = Py.lower q2 ->
  _score_result t1 q1 position = _score_result t2 q2 position.
Proof. unfold _score_result. intros -> ->. reflexivity. Qed.


(** ** Position *)

(** X2. For one title and query, a later position scores strictly lower as
    long as the earlier position is below 100, and the same from position
    100 on. *)
Theorem score_decreases_with_position :
  forall title query p1 p2,
    p1 < p2 ->
    (p1 < 100 ->
     _score_result title query p2 < _score_result title query p1) /\
    (100 <= p1 ->
     _score_result title query p2 = _score_result title query p1).
Proof.
  intros title query p1 p2 Hlt. rewrite !score_sum. unfold position_bonus.
  split; intros H; lia.
Qed.

Lemma score_decreases_with_position_witness :
  _score_result "Severance" "sev" 4 < _score_result "Severance" "sev" 3 /\
  _score_result "Severance" "sev" 250 = _score_result "Severance" "sev" 100.
Proof.
  split.
  - apply (proj1 (score_decreases_with_position "Severance" "sev" 3 4
                    ltac:(lia))). lia.
  - apply (proj2 (score_decreases_with_position "Severance" "sev" 100 250
                    ltac:(lia))). lia.
Defined.

(** ** The best title for a query *)

Lemma mem_In (w : string) (words : list string) :
  Py.mem w words = true <-> In w words.
Proof.
  unfold Py.mem. rewrite existsb_exists. split.
  - intros [x [Hx Hw]]. apply String.eqb_eq in Hw. subst x. exact Hx.
  - intros Hw. exists w. split; [exact Hw | apply String.eqb_refl].
Qed.

Lemma filter_all {A : Type} (f : A -> bool) (l : list A) :
  (forall x, In x l -> f x = true) -> filter f l = l.
Proof.
  induction l as [|x l IH]; intros H; cbn [filter]; [reflexivity|].
  rewrite (H x (or_introl eq_refl)), IH; [reflexivity|].
  intros y Hy. apply H. right. exact Hy.
Qed.

Lemma filter_length_le {A : Type} (f : A -> bool) (l : list A) :
  (List.length (filter f l) <= List.length l)%nat.
Proof.
  induction l as [|x l IH]; cbn [filter List.length]; [lia|].
  destruct (f x); cbn [List.length]; lia.
Qed.

Lemma exact_tier title query :
  Py.lower title = Py.lower query -> tier_bonus title query = 1000.
Proof.
  intros H. unfold tier_bonus, tier_of, priority_order. cbn [find tier_test].
  rewrite H, String.eqb_refl. reflexivity.
Qed.

Lemma other_tier title query :
  Py.lower title <> Py.lower query -> tier_bonus title query <= 500.
Proof.
  intros H. unfold tier_bonus, tier_of, priority_order. cbn [find tier_test].
  apply String.eqb_neq in H. rewrite H.
  destruct (Py.startswith _ _); [cbn; lia|].
  destruct (Py.contains (" " ++ _) _); [cbn; lia|].
  destruct (Py.contains _ _); cbn; lia.
Qed.

Lemma exact_overlap title query :
  Py.lower title = Py.lower query ->
  word_overlap_bonus title query
  = 50 * Z.of_nat (List.length (Py.split (Py.lower query))).
Proof.
  intros H. unfold word_overlap_bonus. rewrite H, filter_all; [reflexivity|].
  intros w Hw. apply mem_In. exact Hw.
Qed.

Lemma overlap_bound title query :
  word_overlap_bonus title query
  <= 50 * Z.of_nat (List.length (Py.split (Py.lower query))).
Proof.
  unfold word_overlap_bonus.
  pose proof (filter_length_le
                (fun qword => Py.mem qword (Py.split (Py.lower title)))
                (Py.split (Py.lower query))).
  lia.
Qed.

(** X3. No title scores higher for a query than the query itself at the
    same position: a title equal to the query up to letter case gets 1000,
    50 for each query word and the position bonus, and every other title
    scores at least 500 less. *)
Theorem exact_match_scores_highest :
  forall title query position,
    (Py.lower title = Py.lower query ->
     _score_result title query position
     = 1000 + 50 * Z.of_nat (List.length (Py.split (Py.lower query)))
       + Z.max 0 (100 - position)) /\
    (Py.lower title <> Py.lower query ->
     _score_result title query position + 500
     <= _score_result query query position) /\
    _score_result title query position <= _score_result query query position.
Proof.
  intros title query position.
  assert (Hq : _score_result query query position
               = 1000 + 50 * Z.of_nat (List.length (Py.split (Py.lower query)))
                 + Z.max 0 (100 - position)).
  { rewrite score_sum, (exact_tier query query eq_refl),
      (exact_overlap query query eq_refl). reflexivity. }
  assert (He : Py.lower title = Py.lower query ->
               _score_result title query position
               = _score_result query query position).
  { intros H. apply score_by_lowered; [exact H | reflexivity]. }
  assert (Hn : Py.lower title <> Py.lower query ->
               _score_result title query position + 500
               <= _score_result query query position).
  { intros H. rewrite Hq, score_sum. unfold position_bonus.
    pose proof (other_tier title query H).
    pose proof (overlap_bound title query). lia. }
  split; [intros H; rewrite (He H); exact Hq|].
  split; [exact Hn|].
  destruct (string_dec (Py.lower title) (Py.lower query)) as [H|H].
  - rewrite (He H). lia.
  - specialize (Hn H). lia.
Qed.

Lemma exact_match_scores_highest_witness :
  _score_result "TED LASSO" "Ted Lasso" 2 = 1000 + 50 * 2 + 98 /\
  _score_result "Ted Lasso: The Movie" "Ted Lasso" 2 + 500
  <= _score_result "Ted Lasso" "Ted Lasso" 2.
Proof.
  pose proof (exact_match_scores_highest "TED LASSO" "Ted Lasso" 2)
    as [H1 _].
  pose proof (exact_match_scores_highest "Ted Lasso: The Movie" "Ted Lasso" 2)
    as [_ [H2 _]].
  split; [apply H1; reflexivity | apply H2; discriminate].
Defined.

(** X4. The empty query: every title starts with it, so a title that is not
    empty gets the prefix tier and nothing for words, and the empty title
    gets the exact tier. *)
Theorem empty_query_score :
  forall title position,
    _score_result title "" position
    = (if String.eqb title "" then 1000 else 500) + Z.max 0 (100 - position).
Proof.
  intros title position. unfold _score_result, tier_step, words_step.
  cbn [Py.lower Py.split Py.split_from Py.flush String.eqb fold_left].
  destruct title as [|c title]; cbn [Py.lower String.eqb]; [reflexivity|].
  reflexivity.
Qed.

(** ** Every returned entry *)

(** A returned entry is built from a visited item with its identifier that
    passed the URL validation and the filter. *)
Lemma returned_entry_source include_people http query max_results filter_type
      diags rs r :
  search include_people http query max_results filter_type
  = (diags, Return rs) ->
  In r rs ->
  exists position item,
    In (position, item) (visited include_people http) /\
    item_key item = Some (result_key r) /\
    item_kept filter_type item = Return true /\
    entry_of query position item = Return r.
Proof.
  intros H Hr.
  destruct (search_run _ _ _ _ _ _ _ H) as [st [_ [Hseq ->]]].
  destruct (visit_seq_run _ _ _ _ _ Hseq) as [new [Hres [_ [Hfrom _]]]].
  cbn [results app] in Hres. rewrite Hres in Hr. apply In_rank in Hr.
  destruct (Hfrom r Hr) as [l1 [p [it [l2 [Hl [[Hk _] [_ [Hkept He]]]]]]]].
  exists p, it. rewrite Hl. split; [|auto].
  apply in_or_app. right. left. reflexivity.
Qed.

Lemma item_kept_true filter_type item :
  item_kept filter_type item = Return true ->
  exists u,
    PyJson.get item "url" (JStr "") = Return u /\
    url_rejected u = Return false /\
    filtered_out filter_type u = Return false.
Proof.
  unfold item_kept. intros H.
  destruct (PyJson.get item "url" (JStr "")) as [u|e]; cbn [bind] in H;
    [|discriminate H].
  exists u. split; [reflexivity|].
  destruct (url_rejected u) as [[|]|e]; cbn [bind] in H; try discriminate H.
  split; [reflexivity|].
  destruct (filtered_out filter_type u) as [[|]|e]; cbn [bind negb] in H;
    try discriminate H.
  reflexivity.
Qed.

Lemma valid_url_has_marker u :
  url_rejected (JStr u) = Return false ->
  Py.contains "/show/" u = true \/ Py.contains "/movie/" u = true \/
  Py.contains "/person/" u = true.
Proof.
  unfold url_rejected.
  destruct (PyJson.truthy (JStr u)); cbn [negb PyJson.contains bind];
    [|discriminate].
  destruct (Py.contains "/show/" u); [auto|].
  destruct (Py.contains "/movie/" u); [auto|].
  destruct (Py.contains "/person/" u); [auto | discriminate].
Qed.

(** X5. Every entry [search] returns carries a URL that passed the
    validation; when that URL is a string it contains [/show/], [/movie/]
    or [/person/], and is not empty. *)
Theorem returned_urls_are_valid :
  forall include_people http query max_results filter_type diags rs r,
    search include_people http query max_results filter_type
    = (diags, Return rs) ->
    In r rs ->
    url_rejected (url r) = Return false /\
    forall u, url r = JStr u ->
              u <> "" /\
              (Py.contains "/show/" u = true \/
               Py.contains "/movie/" u = true \/
               Py.contains "/person/" u = true).
Proof.
  intros include_people http query max_results filter_type diags rs r H Hr.
  destruct (returned_entry_source _ _ _ _ _ _ _ _ H Hr)
    as [p [item [_ [_ [Hkept He]]]]].
  destruct (item_kept_true _ _ Hkept) as [u [Hu [Hvalid _]]].
  destruct (entry_fields _ _ _ _ He) as [_ [_ [_ [_ [Hurl _]]]]].
  assert (u = url r) by congruence. subst u.
  split; [exact Hvalid|].
  intros u Heq. rewrite Heq in Hvalid. split.
  - intros ->. discriminate Hvalid.
  - apply valid_url_has_marker. exact Hvalid.
Qed.

Lemma returned_urls_are_valid_witness :
  url_rejected (JStr "/show/foundation-ii") = Return false /\
  "/show/foundation-ii" <> "" /\
  (Py.contains "/show/" "/show/foundation-ii" = true \/
   Py.contains "/movie/" "/show/foundation-ii" = true \/
   Py.contains "/person/" "/show/foundation-ii" = true).
Proof.
  pose proof (returned_urls_are_valid
                false two_shelves "Foundation" None None []
                [mkResult 1150 (JStr "X123") "Foundation" (JStr "Movie")
                          (JStr "Movie") (JStr "/movie/foundation");
                 mkResult 649 (JStr "Y456") "Foundation II" (JStr "Movie")
                          (JStr "Movie") (JStr "/show/foundation-ii")]
                (mkResult 649 (JStr "Y456") "Foundation II" (JStr "Movie")
                          (JStr "Movie") (JStr "/show/foundation-ii"))
                ltac:(vm_compute; reflexivity)
                ltac:(right; left; reflexivity)) as [H1 H2].
  split; [exact H1 | exact (H2 _ eq_refl)].
Defined.

Lemma filtered_out_false filter_type u :
  given filter_type = true ->
  filtered_out filter_type u = Return false ->
  exists is_movie is_show,
    PyJson.contains "/movie/" u = Return is_movie /\
    PyJson.contains "/show/" u = Return is_show /\
    (String.eqb (Py.lower (text filter_type)) "movie" = true ->
     is_movie = true) /\
    (String.eqb (Py.lower (text filter_type)) "show"
     || String.eqb (Py.lower (text filter_type)) "series" = true ->
     is_show = true).
Proof.
  unfold filtered_out. intros -> H.
  destruct (PyJson.contains "/movie/" u) as [is_movie|e]; cbn [bind] in H;
    [|discriminate H].
  destruct (PyJson.contains "/show/" u) as [is_show|e]; cbn [bind] in H;
    [|discriminate H].
  exists is_movie, is_show. split; [reflexivity|]. split; [reflexivity|].
  destruct (String.eqb (Py.lower (text filter_type)) "movie");
    destruct (String.eqb (Py.lower (text filter_type)) "show"
              || String.eqb (Py.lower (text filter_type)) "series");
    destruct is_movie, is_show; cbn in H; try discriminate H;
    split; intros; congruence.
Qed.

(** X6. The type filter holds for the whole returned list: with the filter
    movie (in any letter case) every returned URL contains [/movie/], and
    with show or series every returned URL contains [/show/]. *)
Theorem filtered_search_returns_one_type :
  forall include_people http query max_results ft diags rs r,
    ft <> "" ->
    search include_people http query max_results (Some ft)
    = (diags, Return rs) ->
    In r rs ->
    (Py.lower ft = "movie" ->
     PyJson.contains "/movie/" (url r) = Return true) /\
    (Py.lower ft = "show" \/ Py.lower ft = "series" ->
     PyJson.contains "/show/" (url r) = Return true).
Proof.
  intros include_people http query max_results ft diags rs r Hft H Hr.
  destruct (returned_entry_source _ _ _ _ _ _ _ _ H Hr)
    as [p [item [_ [_ [Hkept He]]]]].
  destruct (item_kept_true _ _ Hkept) as [u [Hu [_ Hfilter]]].
  destruct (entry_fields _ _ _ _ He) as [_ [_ [_ [_ [Hurl _]]]]].
  assert (u = url r) by congruence. subst u.
  assert (Hgiven : given (Some ft) = true).
  { cbn [given]. apply String.eqb_neq in Hft. rewrite Hft. reflexivity. }
  destruct (filtered_out_false _ _ Hgiven Hfilter)
    as [is_movie [is_show [Hm [Hs [Hmovie Hshow]]]]].
  cbn [text] in Hmovie, Hshow. split.
  - intros Heq. rewrite Hm, Hmovie; [reflexivity|].
    rewrite Heq. reflexivity.
  - intros Heq. rewrite Hs, Hshow; [reflexivity|].
    destruct Heq as [-> | ->]; reflexivity.
Qed.

Lemma filtered_search_returns_one_type_witness :
  PyJson.contains "/show/" (JStr "/show/foundation-ii") = Return true.
Proof.
  apply (proj2 (filtered_search_returns_one_type
                  false two_shelves "Foundation" None "Series" []
                  [mkResult 649 (JStr "Y456") "Foundation II" (JStr "Movie")
                            (JStr "Movie") (JStr "/show/foundation-ii")]
                  (mkResult 649 (JStr "Y456") "Foundation II" (JStr "Movie")
                            (JStr "Movie") (JStr "/show/foundation-ii"))
                  ltac:(discriminate) ltac:(vm_compute; reflexivity)
                  ltac:(left; reflexivity))).
  right. reflexivity.
Defined.

Lemma item_key_id item k :
  item_key item = Some k ->
  exists content_id,
    PyJson.get item "id" JNull = Return content_id /\
    PyJson.truthy content_id = true /\
    PyJson.hash content_id = Return k.
Proof.
  unfold item_key. intros H.
  destruct (PyJson.get item "id" JNull) as [cid|e]; [|discriminate H].
  exists cid. split; [reflexivity|].
  destruct (PyJson.truthy cid); [|discriminate H]. split; [reflexivity|].
  destruct (PyJson.hash cid) as [k'|e]; [|discriminate H]. congruence.
Qed.

(** X7. No returned entry is without identifier: the ["id"] of every entry
    is truthy (not [None], not empty, not zero) and hashable, so an
    identifier that is a string is a non-empty one. *)
Theorem returned_ids_are_present :
  forall include_people http query max_results filter_type diags rs r,
    search include_people http query max_results filter_type
    = (diags, Return rs) ->
    In r rs ->
    PyJson.truthy (id r) = true /\
    PyJson.hash (id r) = Return (result_key r) /\
    id r <> JNull /\ id r <> JStr "".
Proof.
  intros include_people http query max_results filter_type diags rs r H Hr.
  destruct (returned_entry_source _ _ _ _ _ _ _ _ H Hr)
    as [p [item [_ [Hkey [_ He]]]]].
  destruct (item_key_id _ _ Hkey) as [cid [Hid [Ht Hh]]].
  destruct (entry_fields _ _ _ _ He) as [Hid' _].
  assert (cid = id r) by congruence. subst cid.
  split; [exact Ht|]. split; [exact Hh|].
  split; intros Heq; rewrite Heq in Ht; discriminate Ht.
Qed.

Lemma returned_ids_are_present_witness :
  PyJson.truthy (JStr "Y456") = true /\
  PyJson.hash (JStr "Y456") = Return (PyJson.KStr "Y456") /\
  JStr "Y456" <> JNull /\ JStr "Y456" <> JStr "".
Proof.
  apply (returned_ids_are_present
           false two_shelves "Foundation" None (Some "show") []
           [mkResult 649 (JStr "Y456") "Foundation II" (JStr "Movie")
                     (JStr "Movie") (JStr "/show/foundation-ii")]
           (mkResult 649 (JStr "Y456") "Foundation II" (JStr "Movie")
                     (JStr "Movie") (JStr "/show/foundation-ii"))).
  - vm_compute. reflexivity.
  - left. reflexivity.
Defined.

(** X8. Missing keys of an item are filled in on its entry: without
    ["title"] the title is ["Unknown"], without ["type"] the raw type is
    ["Unknown"], and without ["localizedType"] the type is the raw type;
    a ["localizedType"] that is present is the type. *)
Theorem missing_fields_default :
  forall include_people http query max_results filter_type diags rs r,
    search include_people http query max_results filter_type
    = (diags, Return rs) ->
    In r rs ->
    exists position kvs,
      In (position, JObj kvs) (visited include_people http) /\
      PyJson.lookup "id" kvs = Some (id r) /\
      (PyJson.lookup "title" kvs = None -> title r = "Unknown") /\
      (PyJson.lookup "type" kvs = None -> raw_type r = JStr "Unknown") /\
      (PyJson.lookup "localizedType" kvs = None -> type r = raw_type r) /\
      (forall v, PyJson.lookup "localizedType" kvs = Some v -> type r = v).
Proof.
  intros include_people http query max_results filter_type diags rs r H Hr.
  destruct (returned_entry_source _ _ _ _ _ _ _ _ H Hr)
    as [p [item [Hin [Hkey [_ He]]]]].
  destruct (entry_fields _ _ _ _ He) as [Hid [Ht [Hty [Hlt _]]]].
  destruct item as [| | | |xs|kvs]; try discriminate Hid.
  exists p, kvs. split; [exact Hin|].
  cbn [PyJson.get] in Hid, Ht, Hty, Hlt.
  injection Hid as Hid. injection Ht as Ht. injection Hty as Hty.
  injection Hlt as Hlt.
  split.
  { destruct (item_key_id _ _ Hkey) as [cid [Hcid [Htruthy _]]].
    cbn [PyJson.get] in Hcid. injection Hcid as Hcid.
    destruct (PyJson.lookup "id" kvs) as [v|]; [congruence|].
    subst cid. discriminate Htruthy. }
  split; [intros Hn; rewrite Hn in Ht; congruence|].
  split; [intros Hn; rewrite Hn in Hty; congruence|].
  split; [intros Hn; rewrite Hn in Hlt; congruence|].
  intros v Hv. rewrite Hv in Hlt. congruence.
Qed.

Lemma missing_fields_default_witness :
  exists position kvs,
    In (position, JObj kvs)
       (visited false
          (sample_body
             [sample_shelf "uts.col.Top"
                [JObj [("id", JStr "n1"); ("url", JStr "/movie/untitled")]]])) /\
    PyJson.lookup "id" kvs = Some (JStr "n1").
Proof.
  destruct (missing_fields_default
              false
              (sample_body
                 [sample_shelf "uts.col.Top"
                    [JObj [("id", JStr "n1"); ("url", JStr "/movie/untitled")]]])
              "Foundation" None None []
              [mkResult 100 (JStr "n1") "Unknown" (JStr "Unknown")
                        (JStr "Unknown") (JStr "/movie/untitled")]
              (mkResult 100 (JStr "n1") "Unknown" (JStr "Unknown")
                        (JStr "Unknown") (JStr "/movie/untitled"))
              ltac:(vm_compute; reflexivity) ltac:(left; reflexivity))
    as [position [kvs [Hin [Hid _]]]].
  exists position, kvs. split; [exact Hin | exact Hid].
Defined.

(** ** The size and the order of the returned list *)

Lemma visit_seq_length query filter_type l :
  forall st st',
    visit_seq query filter_type st l = Return st' ->
    (List.length (results st')
     <= List.length (results st) + List.length l)%nat.
Proof.
  induction l as [|[position item] rest IH]; intros st st' H.
  - cbn in H. injection H as <-. lia.
  - cbn [visit_seq] in H.
    destruct (visit_item query filter_type st position item) as [st1|e] eqn:E1;
      cbn [bind] in H; [|discriminate H].
    apply visit_item_step in E1. specialize (IH st1 st' H).
    cbn [List.length].
    inversion E1; subst; cbn [results] in IH;
      rewrite ?length_app in IH; cbn [List.length] in IH; lia.
Qed.

Lemma rank_length l max_results :
  (List.length (rank l max_results) <= List.length l)%nat /\
  forall n, max_results = Some n -> 0 < n ->
            (List.length (rank l max_results) <= Z.to_nat n)%nat.
Proof.
  pose proof (Permutation_length (sort_perm l)) as Hlen.
  unfold rank, truncate. destruct max_results as [n|].
  - destruct (Z.ltb_spec 0 n) as [Hn|Hn].
    + rewrite length_firstn. split; [lia|].
      intros m Hm _. injection Hm as <-. lia.
    + split; [lia|]. intros m Hm Hpos. injection Hm as <-. lia.
  - split; [lia|]. intros m Hm. discriminate Hm.
Qed.

(** X9. The returned list is never longer than the number of visited items,
    and never longer than a positive [max_results]. *)
Theorem returned_list_is_bounded :
  forall include_people http query max_results filter_type diags rs,
    search include_people http query max_results filter_type
    = (diags, Return rs) ->
    (List.length rs <= List.length (visited include_people http))%nat /\
    forall n, max_results = Some n -> 0 < n ->
              (List.length rs <= Z.to_nat n)%nat.
Proof.
  intros include_people http query max_results filter_type diags rs H.
  destruct (search_run _ _ _ _ _ _ _ H) as [st [_ [Hseq ->]]].
  pose proof (visit_seq_length _ _ _ _ _ Hseq) as Hlen.
  cbn [results List.length] in Hlen.
  destruct (rank_length (results st) max_results) as [H1 H2].
  split; [lia | exact H2].
Qed.

Lemma returned_list_is_bounded_witness :
  (1 <= List.length (visited false two_shelves))%nat /\
  (1 <= Z.to_nat 1)%nat.
Proof.
  pose proof (returned_list_is_bounded
                false two_shelves "Foundation" (Some 1) None []
                [mkResult 1150 (JStr "X123") "Foundation" (JStr "Movie")
                          (JStr "Movie") (JStr "/movie/foundation")]
                ltac:(vm_compute; reflexivity)) as [H1 H2].
  split; [exact H1 | apply (H2 1 eq_refl); lia].
Defined.

Lemma truncate_nil max_results : truncate [] max_results = [].
Proof.
  unfold truncate. destruct max_results as [n|]; [|reflexivity].
  destruct (Z.ltb 0 n); [apply firstn_nil | reflexivity].
Qed.

(** X10. Limiting a search does not change its ranking: the list returned
    under any [max_results] is the list returned without limit, cut by that
    [max_results] (a prefix of it), with the same messages. *)
Theorem limited_search_is_prefix :
  forall include_people http query filter_type diags full max_results,
    search include_people http query None filter_type
    = (diags, Return full) ->
    search include_people http query max_results filter_type
    = (diags, Return (truncate full max_results)).
Proof.
  intros include_people http query filter_type diags full max_results.
  unfold search. destruct http as [reason|data].
  - intros H. injection H as <- <-. rewrite truncate_nil. reflexivity.
  - unfold search_body. intros H. injection H as <- H. f_equal.
    destruct (shelves_of data) as [shelves|e]; cbn [bind] in *;
      [|discriminate H].
    destruct (PyJson.truthy shelves); cbn [negb] in *.
    + destruct (PyJson.iter shelves) as [l|e]; cbn [bind] in *;
        [|discriminate H].
      destruct (visit_shelves _ _ _ _ l) as [st|e]; cbn [bind] in *;
        [|discriminate H].
      injection H as <-. reflexivity.
    + injection H as <-. rewrite truncate_nil. reflexivity.
Qed.

Lemma limited_search_is_prefix_witness :
  search false two_shelves "Foundation" (Some 1) None
  = ([], Return (truncate
                   [mkResult 1150 (JStr "X123") "Foundation" (JStr "Movie")
                             (JStr "Movie") (JStr "/movie/foundation");
                    mkResult 649 (JStr "Y456") "Foundation II" (JStr "Movie")
                             (JStr "Movie") (JStr "/show/foundation-ii")]
                   (Some 1))).
Proof.
  apply limited_search_is_prefix. vm_compute. reflexivity.
Defined.

Lemma firstn_sorted (n : nat) (l : list SearchResult) :
  StronglySorted precedes l -> StronglySorted precedes (firstn n l).
Proof.
  revert n. induction l as [|x l IH]; intros n H.
  - rewrite firstn_nil. constructor.
  - destruct n as [|n]; cbn [firstn]; [constructor|].
    inversion H as [|y l' Hs Hall]; subst.
    constructor; [apply IH; exact Hs|].
    rewrite Forall_forall in *. intros z Hz. apply Hall.
    rewrite <- (firstn_skipn n l). apply in_or_app. left. exact Hz.
Qed.

(** X11. The list [search] returns is in rank order, truncated or not: of
    two entries the earlier has the higher score, or the same score and a
    title that is not greater in code-point order. *)
Theorem returned_list_is_sorted :
  forall include_people http query max_results filter_type diags rs,
    search include_people http query max_results filter_type
    = (diags, Return rs) ->
    StronglySorted precedes rs /\
    forall i j a b,
      (i < j)%nat -> nth_error rs i = Some a -> nth_error rs j = Some b ->
      score b <= score a.
Proof.
  intros include_people http query max_results filter_type diags rs H.
  rewrite (search_returns_rank _ _ _ _ _ _ _ H).
  set (acc := accumulated include_people http query filter_type).
  assert (Hs : StronglySorted precedes (rank acc max_results)).
  { unfold rank, truncate. pose proof (sort_sorted acc) as Hs.
    destruct max_results as [n|]; [|exact Hs].
    destruct (Z.ltb 0 n); [apply firstn_sorted|]; exact Hs. }
  split; [exact Hs|].
  generalize dependent (rank acc max_results). clear.
  intros l Hs. induction Hs as [|x l Hs IH Hall]; intros i j a b Hij Ha Hb.
  - destruct i; discriminate Ha.
  - destruct j as [|j]; [lia|]. cbn [nth_error] in Hb.
    destruct i as [|i]; cbn [nth_error] in Ha.
    + injection Ha as <-. apply nth_error_In in Hb.
      rewrite Forall_forall in Hall. specialize (Hall b Hb).
      unfold precedes in Hall. lia.
    + apply (IH i j a b); [lia | exact Ha | exact Hb].
Qed.

Lemma returned_list_is_sorted_witness :
  StronglySorted precedes
    [mkResult 1150 (JStr "X123") "Foundation" (JStr "Movie")
              (JStr "Movie") (JStr "/movie/foundation");
     mkResult 649 (JStr "Y456") "Foundation II" (JStr "Movie")
              (JStr "Movie") (JStr "/show/foundation-ii")].
Proof.
  apply (proj1 (returned_list_is_sorted
                  false two_shelves "Foundation" None None [] _
                  ltac:(vm_compute; reflexivity))).
Defined.

(** ** include-people without people shelves *)

Lemma shelf_items_without_marker shelf :
  (forall sid, PyJson.get shelf "id" (JStr "") = Return sid ->
               shelf_skipped false sid = Return false) ->
  shelf_items false shelf = shelf_items true shelf.
Proof.
  intros H. unfold shelf_items.
  destruct (PyJson.get shelf "id" (JStr "")) as [sid|e]; cbn [bind];
    [|reflexivity].
  rewrite (H sid eq_refl). reflexivity.
Qed.

Lemma visit_shelves_without_marker query filter_type shelves :
  (forall shelf sid,
      In shelf shelves ->
      PyJson.get shelf "id" (JStr "") = Return sid ->
      shelf_skipped false sid = Return false) ->
  forall st,
    visit_shelves false query filter_type st shelves
    = visit_shelves true query filter_type st shelves.
Proof.
  induction shelves as [|shelf rest IH]; intros H st; [reflexivity|].
  cbn [visit_shelves]. unfold visit_shelf.
  rewrite (shelf_items_without_marker shelf);
    [|intros sid; apply H; left; reflexivity].
  destruct (shelf_items true shelf) as [items|e]; cbn [bind]; [|reflexivity].
  destruct (visit_items query filter_type st 0 items) as [st1|e]; cbn [bind];
    [|reflexivity].
  apply IH. intros s sid Hs. apply H. right. exact Hs.
Qed.

(** X12. include-people matters for people shelves only: on a response
    none of whose shelves would be skipped, the search gives the same
    outcome with the option set and unset. *)
Theorem include_people_only_matters_for_people_shelves :
  forall http query max_results filter_type,
    (forall shelf sid,
        In shelf (shelf_list http) ->
        PyJson.get shelf "id" (JStr "") = Return sid ->
        shelf_skipped false sid = Return false) ->
    search false http query max_results filter_type
    = search true http query max_results filter_type.
Proof.
  intros http query max_results filter_type. unfold search, shelf_list.
  destruct http as [reason|data]; [reflexivity|].
  unfold search_body.
  destruct (shelves_of data) as [shelves|e]; cbn [bind]; [|reflexivity].
  destruct (PyJson.truthy shelves); cbn [negb]; [|reflexivity].
  destruct (PyJson.iter shelves) as [l|e]; cbn [bind]; [|reflexivity].
  intros H. rewrite (visit_shelves_without_marker _ _ _ H). reflexivity.
Qed.

Lemma include_people_only_matters_for_people_shelves_witness :
  search false two_shelves "Foundation" None None
  = search true two_shelves "Foundation" None None.
Proof.
  apply include_people_only_matters_for_people_shelves.
  intros shelf sid [<- | [<- | []]] Hid; cbn in Hid; injection Hid as <-;
    reflexivity.
Defined.

(** ** Bodies of the documented shape *)

Lemma url_rejected_str u : exists b, url_rejected (JStr u) = Return b.
Proof.
  unfold url_rejected. destruct (PyJson.truthy (JStr u)); cbn [negb]; eauto.
  cbn [PyJson.contains bind].
  destruct (Py.contains "/show/" u); eauto.
  destruct (Py.contains "/movie/" u); eauto.
Qed.

Lemma filtered_out_str filter_type u :
  exists b, filtered_out filter_type (JStr u) = Return b.
Proof.
  unfold filtered_out. destruct (given filter_type); eauto.
  cbn [PyJson.contains bind].
  destruct (String.eqb _ "movie" && _); eauto.
  destruct ((String.eqb _ "show" || String.eqb _ "series") && _); eauto.
Qed.

Lemma shelf_skipped_str include_people sid :
  exists b, shelf_skipped include_people (JStr sid) = Return b.
Proof.
  unfold shelf_skipped, is_people_shelf.
  destruct include_people; cbn [negb PyJson.contains PyJson.lower bind]; eauto.
  destruct (Py.contains "PN" sid); eauto.
Qed.

Lemma str_or_absent_value kvs k default_ :
  str_or_absent kvs k = true ->
  exists s, match PyJson.lookup k kvs with
            | Some v => v
            | None => JStr default_
            end = JStr s.
Proof.
  unfold str_or_absent.
  destruct (PyJson.lookup k kvs) as [[| | |s| |]|]; try discriminate; eauto.
Qed.

Lemma visit_item_well_shaped query filter_type st position item :
  item_well_shaped item = true ->
  exists st', visit_item query filter_type st position item = Return st'.
Proof.
  destruct item as [| | | |xs|kvs]; try discriminate.
  cbn [item_well_shaped]. intros H.
  apply andb_true_iff in H. destruct H as [H Hurl].
  apply andb_true_iff in H. destruct H as [Hid Htitle].
  unfold visit_item. cbn [PyJson.get bind].
  assert (Hid' : exists v, match PyJson.lookup "id" kvs with
                           | Some v => v
                           | None => JNull
                           end = v /\
                           (v = JNull \/ exists s, v = JStr s)).
  { unfold str_or_absent in Hid.
    destruct (PyJson.lookup "id" kvs) as [[| | |s| |]|]; try discriminate Hid;
      eauto. }
  destruct Hid' as [v [-> [-> | [s ->]]]]; [cbn; eauto|].
  destruct (PyJson.truthy (JStr s)); cbn [negb]; eauto.
  cbn [PyJson.hash bind].
  destruct (PyJson.key_mem (PyJson.KStr s) (seen_ids st)); eauto.
  destruct (str_or_absent_value kvs "url" "" Hurl) as [u ->].
  destruct (url_rejected_str u) as [[|] ->]; cbn [bind]; eauto.
  destruct (filtered_out_str filter_type u) as [[|] ->]; cbn [bind]; eauto.
  destruct (str_or_absent_value kvs "title" "Unknown" Htitle) as [t ->].
  cbn [score_item bind]. eauto.
Qed.

Lemma visit_items_well_shaped query filter_type items :
  forallb item_well_shaped items = true ->
  forall st position,
    exists st', visit_items query filter_type st position items = Return st'.
Proof.
  induction items as [|item rest IH]; intros H st position;
    cbn [visit_items]; eauto.
  cbn [forallb] in H. apply andb_true_iff in H. destruct H as [Hitem Hrest].
  destruct (visit_item_well_shaped query filter_type st position item Hitem)
    as [st1 ->].
  cbn [bind]. apply IH. exact Hrest.
Qed.

Lemma visit_shelf_well_shaped include_people query filter_type st shelf :
  shelf_well_shaped shelf = true ->
  exists st',
    visit_shelf include_people query filter_type st shelf = Return st'.
Proof.
  destruct shelf as [| | | |xs|kvs]; try discriminate.
  cbn [shelf_well_shaped]. intros H.
  apply andb_true_iff in H. destruct H as [Hid Hitems].
  unfold visit_shelf, shelf_items. cbn [PyJson.get bind].
  destruct (str_or_absent_value kvs "id" "" Hid) as [sid ->].
  destruct (shelf_skipped_str include_people sid) as [[|] ->]; cbn [bind].
  - cbn [visit_items]. eauto.
  - destruct (PyJson.lookup "items" kvs) as [[| | | |items|]|];
      try discriminate Hitems; cbn [PyJson.iter bind].
    + apply visit_items_well_shaped. exact Hitems.
    + cbn [visit_items]. eauto.
Qed.

Lemma visit_shelves_well_shaped include_people query filter_type shelves :
  forallb shelf_well_shaped shelves = true ->
  forall st,
    exists st',
      visit_shelves include_people query filter_type st shelves = Return st'.
Proof.
  induction shelves as [|shelf rest IH]; intros H st; cbn [visit_shelves];
    eauto.
  cbn [forallb] in H. apply andb_true_iff in H. destruct H as [Hshelf Hrest].
  destruct (visit_shelf_well_shaped include_people query filter_type st shelf
                                    Hshelf) as [st1 ->].
  cbn [bind]. apply IH. exact Hrest.
Qed.

(** X13. On a body of the documented shape ([data.canvas.shelves] a list of
    shelf objects, their ["id"] a string, their ["items"] a list of objects
    whose ["id"], ["title"] and ["url"] are strings, any of these keys
    possibly absent) [search] returns a list and prints nothing to
    [stderr]; it does not raise. *)
Theorem well_shaped_body_never_raises :
  forall include_people data query max_results filter_type,
    body_well_shaped data = true ->
    exists rs,
      search include_people (Body data) query max_results filter_type
      = ([], Return rs).
Proof.
  intros include_people data query max_results filter_type.
  unfold body_well_shaped, search, search_body.
  destruct (shelves_of data) as [[| | | |shelves|]|e]; try discriminate.
  intros H. cbn [bind PyJson.iter].
  destruct (PyJson.truthy (JArr shelves)); cbn [negb]; eauto.
  destruct (visit_shelves_well_shaped include_people query filter_type
                                      shelves H (mkState [] [])) as [st ->].
  cbn [bind]. eauto.
Qed.

Lemma well_shaped_body_never_raises_witness :
  exists rs, search false people_then_top "ted" (Some 3) (Some "show")
             = ([], Return rs).
Proof.
  apply well_shaped_body_never_raises. reflexivity.
Defined.

(** ** The letter case of the query *)






(** ** The resolver and the constructor *)

Section ResolverProperties.

Variable repr_container : json -> string.

(** X15. A region the directory lists, in any letter case, resolves to the
    text of its ["storefrontId"] with nothing printed: a string as it is, an
    integer in decimal. *)
Theorem listed_region_resolves :
  forall data directory region record v,
    PyJson.get data "data" (JObj []) = Return (JObj directory) ->
    PyJson.lookup (Py.upper region) directory = Some (JObj record) ->
    record <> [] ->
    PyJson.lookup "storefrontId" record = Some v ->
    get_storefront_for_region repr_container (Body data) region
    = ([], Some (str repr_container v)) /\
    get_storefront_for_region repr_container (Body data) (Py.lower region)
    = ([], Some (str repr_container v)) /\
    (forall s, v = JStr s -> str repr_container v = s) /\
    (forall n, v = JInt n ->
               str repr_container v = NilZero.string_of_int (Z.to_int n)).
Proof.
  intros data directory region record v Hdata Hregion Hrec Hid.
  assert (H : forall r, Py.upper r = Py.upper region ->
                        get_storefront_for_region repr_container (Body data) r
                        = ([], Some (str repr_container v))).
  { intros r Hr. unfold get_storefront_for_region, storefront_lookup.
    rewrite Hdata. cbn [bind PyJson.get]. rewrite Hr, Hregion.
    assert (Ht : PyJson.truthy (JObj record) = true).
    { destruct record; [congruence | reflexivity]. }
    rewrite Ht. cbn [bind PyJson.get]. rewrite Hid. reflexivity. }
  split; [apply H; reflexivity|].
  split; [apply H, upper_lower|].
  split; intros x ->; reflexivity.
Qed.

(** X16. The storefront the constructor settles on is never the empty
    string, whatever it is given and whatever the directory request
    yields. *)
Theorem chosen_storefront_is_never_empty :
  forall http storefront_id region,
    snd (init_storefront repr_container http storefront_id region) <> "".
Proof.
  intros http storefront_id region. unfold init_storefront.
  destruct (given region && negb (given storefront_id)).
  - destruct (get_storefront_for_region repr_container http (text region))
      as [err found].
    destruct (given found) eqn:Hf; cbn [negb snd].
    + destruct found as [s|]; [|discriminate Hf]. cbn [given text] in *.
      destruct (String.eqb s "") eqn:E; [discriminate Hf|].
      apply String.eqb_neq. exact E.
    + cbn. discriminate.
  - cbn [snd].
    destruct (String.eqb (text storefront_id) "") eqn:E; [discriminate|].
    apply String.eqb_neq. exact E.
Qed.

(** X17. A storefront passed to the constructor wins over a region: it is
    used as it is, the directory is not consulted and nothing is printed. *)
Theorem given_storefront_wins :
  forall http sid region,
    sid <> "" ->
    init_storefront repr_container http (Some sid) region = ([], sid).
Proof.
  intros http sid region Hsid. apply init_keeps_storefront.
  cbn [given]. apply String.eqb_neq in Hsid. rewrite Hsid. reflexivity.
Qed.

(** ** The entry point *)

Lemma isdigit_given s : isdigit s = true -> given (Some s) = true.
Proof.
  unfold isdigit. intros H. apply andb_true_iff in H. exact (proj1 H).
Qed.

(** X18. A storefront argument made of digits is the storefront searched,
    taken as typed, with no directory lookup and no message; without the
    argument the US storefront is searched; any other argument is taken as a
    region and looked up in upper case. *)
Theorem storefront_argument_dispatch :
  forall http s,
    (isdigit s = true ->
     init_storefront repr_container http
       (fst (storefront_or_region (Some s)))
       (snd (storefront_or_region (Some s)))
     = ([], s)) /\
    (s <> "" -> isdigit s = false ->
     storefront_or_region (Some s) = (None, Some (Py.upper s)) /\
     init_storefront repr_container http
       (fst (storefront_or_region (Some s)))
       (snd (storefront_or_region (Some s)))
     = init_storefront repr_container http None (Some (Py.upper s))) /\
    init_storefront repr_container http
      (fst (storefront_or_region None)) (snd (storefront_or_region None))
    = ([], "143441").
Proof.
  intros http s. split; [|split].
  - intros H. unfold storefront_or_region.
    rewrite (isdigit_given s H). cbn [text]. rewrite H. cbn [fst snd].
    apply init_keeps_storefront, isdigit_given, H.
  - intros Hs H. unfold storefront_or_region. cbn [given text].
    apply String.eqb_neq in Hs. rewrite Hs, H. cbn [negb fst snd].
    split; reflexivity.
  - reflexivity.
Qed.


(** X20. A failed search request is not fatal to the command: the failure
    goes to [stderr] after whatever the constructor printed there, [stdout]
    ends with the no-results line ([[]] in JSON mode), and the exit code
    is 0. *)
Theorem main_survives_failed_search :
  forall args storefronts_http reason,
    Args.version args = false ->
    exists header err,
      main repr_container args storefronts_http (Failed reason)
      = ((header ++ [if Args.json args then PrintEmptyArray
                     else PrintNoResults])%list,
         (err ++ [ErrorFailedToSearch reason])%list,
         Return 0) /\
      (Args.json args = true -> header = []).
Proof.
  intros args storefronts_http reason Hv. unfold main. rewrite Hv.
  destruct (storefront_or_region (Args.storefront args)) as [sid region].
  destruct (init_storefront repr_container storefronts_http sid region)
    as [err s].
  cbn [search]. eexists. exists err. split; [reflexivity|].
  intros ->. reflexivity.
Qed.


End ResolverProperties.

Lemma listed_region_resolves_witness :
  get_storefront_for_region (fun _ : json => "") storefronts "Gb"
  = ([], Some "143444") /\
  get_storefront_for_region (fun _ : json => "") storefronts (Py.lower "Gb")
  = ([], Some "143444").
Proof.
  pose proof (listed_region_resolves (fun _ : json => "")
                (JObj [("data", JObj [("US", JObj [("storefrontId", JInt 143441)]);
                                      ("GB", JObj [("storefrontId", JInt 143444)])])])
                [("US", JObj [("storefrontId", JInt 143441)]);
                 ("GB", JObj [("storefrontId", JInt 143444)])]
                "Gb" [("storefrontId", JInt 143444)] (JInt 143444)
                eq_refl eq_refl ltac:(discriminate) eq_refl) as [H1 [H2 _]].
  split; [exact H1 | exact H2].
Defined.

Lemma given_storefront_wins_witness :
  init_storefront (fun _ : json => "") (Failed "timeout") (Some "143444")
                  (Some "GB")
  = ([], "143444").
Proof. apply (given_storefront_wins (fun _ : json => "")). discriminate. Defined.

Lemma storefront_argument_dispatch_witness :
  init_storefront (fun _ : json => "") (Failed "offline")
    (fst (storefront_or_region (Some "143444")))
    (snd (storefront_or_region (Some "143444")))
  = ([], "143444") /\
  storefront_or_region (Some "gb") = (None, Some "GB").
Proof.
  split.
  - apply (proj1 (storefront_argument_dispatch (fun _ : json => "")
                                               (Failed "offline") "143444")).
    reflexivity.
  - apply (proj1 (proj2 (storefront_argument_dispatch
                           (fun _ : json => "") (Failed "offline") "gb")));
      [discriminate | reflexivity].
Defined.


Lemma main_survives_failed_search_witness :
  exists header err,
    main (fun _ : json => "") args_numeric_json storefronts (Failed "timeout")
    = ((header ++ [PrintEmptyArray])%list,
       (err ++ [ErrorFailedToSearch "timeout"])%list, Return 0) /\
    header = [].
Proof.
  destruct (main_survives_failed_search (fun _ : json => "")
              args_numeric_json storefronts "timeout" eq_refl)
    as [header [err [H1 H2]]].
  exists header, err. split; [exact H1 | exact (H2 eq_refl)].
Defined.


